(** * find-qtifw: version, installer and mirror resolution

    A shallow embedding of [src/find-qtifw.ts] and the properties of its
    three resolvers: [requestQtIndex] (which release satisfies a range),
    [getInstallerLinkForSpecificVersion] (which file of a release) and
    [getMirrorLinkForSpecificLink] (which mirror of a file), together with
    [getInstallerExtension].

    The TypeScript leans on four libraries: [axios] for the three GET
    requests, [cheerio] for the markup, [semver] for versions and ranges,
    and Node's [url].  None of them is part of the repository.  They enter
    the embedding as follows.

    - A request is a lookup in [axios_get : string -> option Document]:
      [None] is a rejected promise, [Some d] the elements that the
      function's selector finds in the body, in document order.
    - [semver.coerce], [new semver.Range], [semver.gte], [url.resolve],
      [String.prototype.toLowerCase] and the unary [+] on strings are
      variables of the sections below, so every general statement holds
      whatever these functions compute.  Module [Reference] gives a
      concrete function for each, used to run the examples.
    - The calls to [core.debug], [core.info] and [core.error] only log;
      they are left out. *)

From Stdlib Require Import String Ascii List Bool Arith NArith QArith Lia Lqa.
From Stdlib Require Import DecimalString Permutation Sorted.
Import ListNotations.
Close Scope Q_scope.
Open Scope list_scope.
Open Scope string_scope.

(** ** Thrown values and results *)

(** What a [throw] carries: the source throws plain strings
    ([throw `...`]) and, once, an [Error] object; [semver] throws a
    [TypeError] on a string that is not a version. *)
Inductive exn : Type :=
| Throw (message : string)
| ThrowError (message : string)
| ThrowTypeError (message : string).

(** The outcome of an [async] function: the promise resolves or rejects. *)
Inductive result (A : Type) : Type :=
| Ok (value : A)
| Err (thrown : exn).

Arguments Ok {A} value.
Arguments Err {A} thrown.

Definition bind {A B : Type} (r : result A) (k : A -> result B) : result B :=
  match r with
  | Ok a => k a
  | Err e => Err e
  end.

Notation "x <- r ;; k" := (bind r (fun x => k))
  (at level 61, r at next level, right associativity).

(** ** The JavaScript values the source computes with *)

Module JS.

(** A string in a condition: only the empty string is falsy. *)
Definition truthy (s : string) : bool := negb (s =? "").

(** An optional string in a condition ([undefined] is falsy). *)
Definition truthy_opt (o : option string) : bool :=
  match o with
  | None => false
  | Some s => truthy s
  end.

(** [x == null] at a string [x].  Loose equality with [null] holds of
    [null] and [undefined] only, so of no string, the empty one
    included. *)
Definition eq_null (x : string) : bool := false.

(** [s.includes(t)]: [t] occurs in [s] as a contiguous run. *)
Fixpoint includes (s t : string) : bool :=
  prefix t s ||
  match s with
  | EmptyString => false
  | String _ s' => includes s' t
  end.

(** [s.endsWith(e)]: the last [e.length] units of [s] are [e]. *)
Definition endsWith (s e : string) : bool :=
  (String.length e <=? String.length s)%nat &&
  (substring (String.length s - String.length e) (String.length e) s =? e).

(** Numbers.  A finite double is the rational it denotes; the
    difference of two finite doubles has the sign of the exact
    difference, which is all that [sort] reads from it. *)
Inductive Number : Type :=
| NaN
| NegInfinity
| Fin (q : Q)
| PosInfinity.

(** [a - b]. *)
Definition sub (a b : Number) : Number :=
  match a, b with
  | NaN, _ | _, NaN => NaN
  | PosInfinity, PosInfinity => NaN
  | NegInfinity, NegInfinity => NaN
  | PosInfinity, _ => PosInfinity
  | NegInfinity, _ => NegInfinity
  | Fin _, PosInfinity => NegInfinity
  | Fin _, NegInfinity => PosInfinity
  | Fin x, Fin y => Fin (x - y)%Q
  end.

Definition isNaN (a : Number) : bool :=
  match a with
  | NaN => true
  | _ => false
  end.

(** [a < b], false as soon as one side is [NaN]. *)
Definition lt (a b : Number) : bool :=
  match a, b with
  | NaN, _ | _, NaN => false
  | _, NegInfinity => false
  | NegInfinity, _ => true
  | PosInfinity, _ => false
  | Fin _, PosInfinity => true
  | Fin x, Fin y => match (x ?= y)%Q with Lt => true | _ => false end
  end.

(** [a <= b]. *)
Definition le (a b : Number) : bool :=
  match a, b with
  | NaN, _ | _, NaN => false
  | NegInfinity, _ => true
  | _, PosInfinity => true
  | _, NegInfinity => false
  | PosInfinity, _ => false
  | Fin x, Fin y => match (x ?= y)%Q with Gt => false | _ => true end
  end.

Section Sort.
Variable A : Type.
Variable comparefn : A -> A -> Number.

(** The comparison [Array.prototype.sort] makes of two elements:
    the comparator's answer, read as zero when it is [NaN]. *)
Definition SortCompare (x y : A) : comparison :=
  match comparefn x y with
  | NaN => Eq
  | NegInfinity => Lt
  | PosInfinity => Gt
  | Fin v => (v ?= 0)%Q
  end.

(** [x] enters a sorted run in front of the first element it is
    strictly below, hence behind every element it ties with. *)
Fixpoint insert (x : A) (run : list A) : list A :=
  match run with
  | [] => [x]
  | y :: run' =>
      match SortCompare x y with
      | Lt => x :: run
      | _ => y :: insert x run'
      end
  end.

(** [arr.sort(comparefn)]: a stable sort, here by insertion from the
    left.  On a comparator that orders the array consistently every
    stable sort returns this list. *)
Definition sort (arr : list A) : list A :=
  fold_left (fun run x => insert x run) arr [].
End Sort.

Arguments SortCompare {A} comparefn x y.
Arguments insert {A} comparefn x run.
Arguments sort {A} comparefn arr.

End JS.

(** ** Markup *)

(** An element as the source reads it: [$(elem).text()] and
    [$(elem).attr(name)].  The attributes are kept in the order of the
    markup; the first binding of a name is the one the parser keeps. *)
Record Element : Type := {
  text : string;
  attribs : list (string * string)
}.

Fixpoint attr (name : string) (attrs : list (string * string)) : option string :=
  match attrs with
  | [] => None
  | (k, v) :: rest => if k =? name then Some v else attr name rest
  end.

(** The elements a selector picks in a body, in document order. *)
Definition Document : Type := list Element.

(** ** [getInstallerExtension] *)

Section Platform.
(** The three constants imported from [./utils], whose values are not
    fixed here. *)
Variables PLATFORM_WINDOWS PLATFORM_DARWIN PLATFORM_LINUX : string.

Definition getInstallerExtension (platform : string) : result string :=
  if platform =? PLATFORM_WINDOWS then Ok "exe"
  else if platform =? PLATFORM_DARWIN then Ok "dmg"
  else if platform =? PLATFORM_LINUX then Ok "run"
  else Err (Throw ("Unknown platform '" ++ platform ++ "'")).
End Platform.

(** ** The [semver] values the source handles *)

Module semver.

(** A [SemVer] object as [semver.coerce] builds it.  [coerce] keeps
    the first one to three runs of digits of its argument and never a
    prerelease or build tag, so the versions that reach [maxSatisfying]
    are plain triples. *)
Record SemVer : Type := {
  major : N;
  minor : N;
  patch : N
}.

Definition decimal (n : N) : string := NilZero.string_of_uint (N.to_uint n).

(** [v.version], the canonical text [major.minor.patch]; it is also
    [v.toString()]. *)
Definition version (v : SemVer) : string :=
  decimal (major v) ++ "." ++ decimal (minor v) ++ "." ++ decimal (patch v).

(** [compareIdentifiers] at two numbers. *)
Definition compareIdentifiers (a b : N) : comparison := (a ?= b)%N.

(** [c || d] at two comparison results: zero is the falsy one. *)
Definition orElse (c d : comparison) : comparison :=
  match c with
  | Eq => d
  | _ => c
  end.

Definition compareMain (a b : SemVer) : comparison :=
  orElse (compareIdentifiers (major a) (major b))
    (orElse (compareIdentifiers (minor a) (minor b))
       (compareIdentifiers (patch a) (patch b))).

(** [a.compare(b)] is [compareMain || comparePre]; [comparePre] is zero
    when neither side has a prerelease tag. *)
Definition compare (a b : SemVer) : comparison := orElse (compareMain a b) Eq.

(** [semver.gte(a, b)] and [semver.lt(a, b)] at two [SemVer] objects. *)
Definition gte (a b : SemVer) : bool :=
  match compare a b with
  | Lt => false
  | _ => true
  end.

Definition lt (a b : SemVer) : bool :=
  match compare a b with
  | Lt => true
  | _ => false
  end.

Section MaxSatisfying.
(** [new Range(range)]: [None] when the constructor throws, else the
    range's [test] method on [SemVer] objects. *)
Variable Range : string -> option (SemVer -> bool).

(** The loop of [maxSatisfying]: [max] is replaced by a version in
    range when there is no [max] yet or [max.compare(v) === -1]. *)
Definition keepMax (test : SemVer -> bool) (max : option SemVer) (v : SemVer)
  : option SemVer :=
  if test v then
    match max with
    | None => Some v
    | Some m =>
        match compare m v with
        | Lt => Some v
        | _ => max
        end
    end
  else max.

Definition maxSatisfying (versions : list SemVer) (range : string)
  : option SemVer :=
  match Range range with
  | None => None
  | Some test => fold_left (keepMax test) versions None
  end.

(** [semver.satisfies(v, range)]: false on a range that does not parse. *)
Definition satisfies (v : SemVer) (range : string) : bool :=
  match Range range with
  | None => false
  | Some test => test v
  end.
End MaxSatisfying.

End semver.

(** ** [requestQtIndex] *)

Definition ROOT_QTIFW_URL : string :=
  "https://download.qt.io/official_releases/qt-installer-framework/".

Section VersionResolver.
Variable coerce : string -> option semver.SemVer.
Variable Range : string -> option (semver.SemVer -> bool).
Variable axios_get : string -> option Document.

(** The body of the [each] callback of [parseQtIndex]. *)
Definition pushVersion (versions : list semver.SemVer) (elem : Element)
  : list semver.SemVer :=
  let thisText := text elem in
  match coerce thisText with
  | Some v => versions ++ [v]
  | None => versions
  end.

Definition parseQtIndex (html : Document) : list semver.SemVer :=
  fold_left pushVersion html [].

(** [`${versions}`]: the elements' [toString()], joined by commas. *)
Definition versionsText (versions : list semver.SemVer) : string :=
  String.concat "," (map semver.version versions).

Definition requestQtIndex (requestedVersion : string) : result string :=
  match axios_get ROOT_QTIFW_URL with
  | None => Err (Throw ("Failed request to '" ++ ROOT_QTIFW_URL ++ "'"))
  | Some resp =>
      let versions := parseQtIndex resp in
      match semver.maxSatisfying Range versions requestedVersion with
      | None =>
          Err (ThrowError ("Invalid version given: available versions are: "
                           ++ versionsText versions))
      | Some maxVersion => Ok (semver.version maxVersion)
      end
  end.
End VersionResolver.

(** ** [getInstallerLinkForSpecificVersion] *)

Section ArtifactLocator.
(** [url.resolve(from, to)]. *)
Variable url_resolve : string -> string -> string.
(** [semver.gte(a, b)]; it throws on a string that is not a version. *)
Variable semver_gte : string -> string -> result bool.
Variable axios_get : string -> option Document.

Definition qtPageUrlOf (requestedVersion : string) : string :=
  url_resolve ROOT_QTIFW_URL requestedVersion ++ "/".

(** The condition of the [if] in the [each] callback. *)
Definition selects (installerExtension arch : string)
    (linux_has_arm64 windows_has_arm64 : bool) (thisLink : option string)
  : bool :=
  match thisLink with
  | None => false
  | Some link =>
      JS.truthy link
      && JS.endsWith link installerExtension
      && (negb (installerExtension =? "run")
          || negb linux_has_arm64
          || JS.includes link arch)
      && (negb (installerExtension =? "exe")
          || negb windows_has_arm64
          || JS.includes link arch)
  end.

(** The body of the [each] callback: a selected link overwrites
    [installerLink]. *)
Definition visitLink (qtPageUrl installerExtension arch : string)
    (linux_has_arm64 windows_has_arm64 : bool)
    (installerLink : string) (elem : Element) : string :=
  let thisLink := attr "href" (attribs elem) in
  if selects installerExtension arch linux_has_arm64 windows_has_arm64 thisLink
  then
    match thisLink with
    | Some link => url_resolve qtPageUrl link
    | None => installerLink
    end
  else installerLink.

Definition getInstallerLinkForSpecificVersion
    (requestedVersion installerExtension arch : string) : result string :=
  let qtPageUrl := qtPageUrlOf requestedVersion in
  linux_has_arm64 <- semver_gte requestedVersion "4.7.0" ;;
  windows_has_arm64 <- semver_gte requestedVersion "4.8.1" ;;
  match axios_get qtPageUrl with
  | None => Err (Throw ("Failed request to '" ++ qtPageUrl ++ "'"))
  | Some data =>
      let installerLink :=
        fold_left
          (visitLink qtPageUrl installerExtension arch
             linux_has_arm64 windows_has_arm64)
          data "" in
      if JS.eq_null installerLink then
        Err (Throw ("Couldn't locate specific installer for version '"
                    ++ requestedVersion ++ "' and extension '"
                    ++ installerExtension ++ "'"))
      else Ok installerLink
  end.
End ArtifactLocator.

(** ** [getMirrorLinkForSpecificLink] *)

Record IMirror : Type := {
  priority : JS.Number;
  url : string
}.

(** The four hosts listed in [isUrlBlackListed]. *)
Definition blacklisteds : list string :=
  [ "mirrors.ocf.berkeley.edu";
    "mirrors.ustc.edu.cn";
    "mirrors.tuna.tsinghua.edu.cn";
    "mirrors.geekpie.club" ].

Section MirrorResolver.
(** [s.toLowerCase()]. *)
Variable toLowerCase : string -> string.
(** [+s], the number a string converts to. *)
Variable ToNumber : string -> JS.Number.
Variable axios_get : string -> option Document.

(** The body of the [forEach] callback of [filterOutUrl]; its [return]
    leaves the callback only, so the loop visits every entry. *)
Definition markIfIncluded (url : string) (isUrlBlackListed : bool)
    (blacklisted : string) : bool :=
  if JS.includes (toLowerCase url) (toLowerCase blacklisted) then true
  else isUrlBlackListed.

(** [alreadyTriedUrls] is optional: [None] is [undefined]. *)
Definition filterOutUrl (url : string) (alreadyTriedUrls : option (list string))
  : bool :=
  match alreadyTriedUrls with
  | None => false
  | Some urls => fold_left (markIfIncluded url) urls false
  end.

Definition isUrlBlackListed (url : string) : bool :=
  filterOutUrl url (Some blacklisteds).

(** [+thisPriority]; the attribute may be absent, and [+undefined] is
    [NaN]. *)
Definition unaryPlus (thisPriority : option string) : JS.Number :=
  match thisPriority with
  | Some p => ToNumber p
  | None => JS.NaN
  end.

(** The body of the [each] callback: an entry with a text and a
    [priority] attribute is pushed unless a filter rejects it. *)
Definition pushMirror (alreadyTriedUrls : option (list string))
    (mirrors : list IMirror) (elem : Element) : list IMirror :=
  let thisLink := text elem in
  let thisPriority := attr "priority" (attribs elem) in
  if JS.truthy thisLink && JS.truthy_opt thisPriority then
    if isUrlBlackListed thisLink then mirrors
    else if filterOutUrl thisLink alreadyTriedUrls then mirrors
    else mirrors ++ [ {| priority := unaryPlus thisPriority; url := thisLink |} ]
  else mirrors.

Definition collectMirrors (alreadyTriedUrls : option (list string))
    (data : Document) : list IMirror :=
  fold_left (pushMirror alreadyTriedUrls) data [].

(** The comparator [(a, b) => a.priority - b.priority]. *)
Definition byPriority (a b : IMirror) : JS.Number :=
  JS.sub (priority a) (priority b).

Definition metaUrlOf (originalUrl : string) : string := originalUrl ++ ".meta4".

Definition getMirrorLinkForSpecificLink (originalUrl : string)
    (alreadyTriedUrls : option (list string)) : result string :=
  let metaUrl := metaUrlOf originalUrl in
  match axios_get metaUrl with
  | None => Err (Throw ("Failed request to '" ++ metaUrl ++ "'"))
  | Some data =>
      let mirrors := collectMirrors alreadyTriedUrls data in
      if (List.length mirrors =? 0)%nat then
        Err (Throw ("Couldn't locate a single mirror on '" ++ metaUrl ++ "'"))
      else
        match JS.sort byPriority mirrors with
        | first :: _ => Ok (url first)
        | [] => Err (ThrowTypeError "Cannot read properties of undefined")
        end
  end.
End MirrorResolver.

(** ** Reference library functions

    Concrete stand-ins for the library functions, on the inputs the
    examples use.  No general statement below depends on them. *)

Module Reference.

Definition isDigit (c : ascii) : bool :=
  let n := nat_of_ascii c in (48 <=? n)%nat && (n <=? 57)%nat.

Fixpoint digits (s : string) : string :=
  match s with
  | String c s' => if isDigit c then String c (digits s') else ""
  | EmptyString => ""
  end.

Fixpoint dropDigits (s : string) : string :=
  match s with
  | String c s' => if isDigit c then dropDigits s' else s
  | EmptyString => ""
  end.

(** The value of a run of digits, most significant first. *)
Fixpoint valueFrom (acc : N) (run : string) : N :=
  match run with
  | String c run' => valueFrom (10 * acc + N.of_nat (nat_of_ascii c - 48)) run'
  | EmptyString => acc
  end.

Definition MAX_SAFE_INTEGER : N := 9007199254740991.
Definition MAX_SAFE_COMPONENT_LENGTH : nat := 16.

(** A numeric identifier of a strict version: no leading zero, at most
    [MAX_SAFE_INTEGER]. *)
Definition numericIdentifier (run : string) : option N :=
  match run with
  | EmptyString => None
  | String c rest =>
      if (c =? "0")%char && negb (rest =? "") then None
      else
        let n := valueFrom 0 run in
        if (n <=? MAX_SAFE_INTEGER)%N then Some n else None
  end.

(** The first run of at most sixteen digits, with what follows it;
    longer runs are passed over whole. *)
Fixpoint findMajor (skipping : bool) (s : string) : option (string * string) :=
  match s with
  | EmptyString => None
  | String c s' =>
      if isDigit c then
        if skipping then findMajor true s'
        else
          let run := digits s in
          if (String.length run <=? MAX_SAFE_COMPONENT_LENGTH)%nat
          then Some (run, dropDigits s)
          else findMajor true s'
      else findMajor false s'
  end.

(** A further component: a dot and a run of one to sixteen digits. *)
Definition nextComponent (s : string) : option (string * string) :=
  match s with
  | String "."%char s' =>
      let run := digits s' in
      if (1 <=? String.length run)%nat
         && (String.length run <=? MAX_SAFE_COMPONENT_LENGTH)%nat
      then Some (run, dropDigits s')
      else None
  | _ => None
  end.

Definition mkSemVer (major minor patch : string) : option semver.SemVer :=
  match numericIdentifier major, numericIdentifier minor,
        numericIdentifier patch with
  | Some a, Some b, Some c =>
      Some {| semver.major := a; semver.minor := b; semver.patch := c |}
  | _, _, _ => None
  end.

(** [semver.coerce(text)]. *)
Definition coerce (thisText : string) : option semver.SemVer :=
  match findMajor false thisText with
  | None => None
  | Some (major, rest) =>
      match nextComponent rest with
      | None => mkSemVer major "0" "0"
      | Some (minor, rest') =>
          match nextComponent rest' with
          | None => mkSemVer major minor "0"
          | Some (patch, _) => mkSemVer major minor patch
          end
      end
  end.

(** A strict [major.minor.patch] and nothing else. *)
Definition parseTriple (s : string) : option semver.SemVer :=
  let major := digits s in
  match nextComponent (dropDigits s) with
  | Some (minor, rest) =>
      match nextComponent rest with
      | Some (patch, EmptyString) => mkSemVer major minor patch
      | _ => None
      end
  | None => None
  end.

(** The exclusive upper end of [^v]: the next version that changes the
    leftmost non-zero component. *)
Definition caretUpper (v : semver.SemVer) : semver.SemVer :=
  if negb (semver.major v =? 0)%N then
    {| semver.major := semver.major v + 1; semver.minor := 0; semver.patch := 0 |}
  else if negb (semver.minor v =? 0)%N then
    {| semver.major := 0; semver.minor := semver.minor v + 1; semver.patch := 0 |}
  else
    {| semver.major := 0; semver.minor := 0; semver.patch := semver.patch v + 1 |}.

(** [new Range(range)] on two shapes of range: a caret range [^a.b.c]
    and an exact version [a.b.c].  The library's grammar is larger. *)
Definition Range (range : string) : option (semver.SemVer -> bool) :=
  match range with
  | String "^"%char rest =>
      match parseTriple rest with
      | Some lo => Some (fun v => semver.gte v lo && semver.lt v (caretUpper lo))
      | None => None
      end
  | _ =>
      match parseTriple range with
      | Some exact =>
          Some (fun v => match semver.compare v exact with Eq => true | _ => false end)
      | None => None
      end
  end.

(** [semver.gte(a, b)] on strict triples. *)
Definition semver_gte (a b : string) : result bool :=
  match parseTriple a, parseTriple b with
  | Some x, Some y => Ok (semver.gte x y)
  | None, _ => Err (ThrowTypeError ("Invalid Version: " ++ a))
  | _, None => Err (ThrowTypeError ("Invalid Version: " ++ b))
  end.

Fixpoint hasSlash (s : string) : bool :=
  match s with
  | String c s' => (c =? "/")%char || hasSlash s'
  | EmptyString => false
  end.

(** [base] up to its last slash. *)
Fixpoint directory (base : string) : string :=
  match base with
  | String c base' => if hasSlash base then String c (directory base') else ""
  | EmptyString => ""
  end.

(** [url.resolve(from, to)] at a [to] that is a relative path with no
    dot segment: the last segment of [from] gives way to [to]. *)
Definition url_resolve (from to : string) : string := directory from ++ to.

Definition lowerChar (c : ascii) : ascii :=
  let n := nat_of_ascii c in
  if (65 <=? n)%nat && (n <=? 90)%nat then ascii_of_nat (n + 32) else c.

(** [toLowerCase] on ASCII text. *)
Fixpoint toLowerCase (s : string) : string :=
  match s with
  | String c s' => String (lowerChar c) (toLowerCase s')
  | EmptyString => ""
  end.

Definition allDigits (s : string) : bool := dropDigits s =? "".

(** [+s] on the empty string and on runs of digits, as JavaScript
    converts them, and [NaN] elsewhere: right for text that is no
    numeric literal, such as "abc".  (JavaScript reads more literals
    as numbers: signed, fractional, exponent and hexadecimal ones,
    [Infinity], and blanks around them; the examples use none.) *)
Definition ToNumber (s : string) : JS.Number :=
  if allDigits s then JS.Fin (inject_Z (Z.of_N (valueFrom 0 s))) else JS.NaN.

Definition anchor (label href : string) : Element :=
  {| text := label; attribs := [("href", href)] |}.

Definition mirror (prio link : string) : Element :=
  {| text := link; attribs := [("priority", prio)] |}.

(** A network that serves one document at one address. *)
Definition serving (address : string) (d : Document) (u : string)
  : option Document :=
  if u =? address then Some d else None.

End Reference.

(** ** The vocabulary of the specification

    What the statements below say of the code, in definitions of their
    own that follow the words of the specification. *)

(** The version [a.b.c]. *)
Definition release (a b c : N) : semver.SemVer :=
  {| semver.major := a; semver.minor := b; semver.patch := c |}.

(** What the loop of [maxSatisfying] holds of the versions seen so far. *)
Definition maxOf (test : semver.SemVer -> bool) (seen : list semver.SemVer)
    (max : option semver.SemVer) : Prop :=
  match max with
  | None => forall w, In w seen -> test w = false
  | Some m =>
      In m seen /\ test m = true
      /\ forall w, In w seen -> test w = true -> semver.compare w m <> Gt
  end.

(** The selection rule in the specification's words: the path ends
    with the extension and, where the release publishes one installer
    per architecture ("run" from 4.7.0, "exe" from 4.8.1), it names the
    architecture. *)
Definition qualifies (installerExtension arch : string)
    (linux_has_arm64 windows_has_arm64 : bool) (link : string) : Prop :=
  JS.endsWith link installerExtension = true
  /\ ((installerExtension = "run" /\ linux_has_arm64 = true)
      \/ (installerExtension = "exe" /\ windows_has_arm64 = true) ->
      JS.includes link arch = true).

(** A mirror whose priority is a number. *)
Definition numeric (m : IMirror) : Prop := JS.isNaN (priority m) = false.

(** An array of mirrors in ascending order of priority. *)
Definition ascending : list IMirror -> Prop :=
  StronglySorted (fun a b => JS.le (priority a) (priority b) = true).

Section Vocabulary.
Variable coerce : string -> option semver.SemVer.
Variable toLowerCase : string -> string.
Variable ToNumber : string -> JS.Number.

(** The versions a listing yields, as the specification words it: the
    labels that coerce, in document order. *)
Definition coercedLabels (html : Document) : list semver.SemVer :=
  flat_map
    (fun elem =>
       match coerce (text elem) with
       | Some v => [v]
       | None => []
       end)
    html.

(** [url] contains [tried], letter case aside. *)
Definition mentions (url tried : string) : bool :=
  JS.includes (toLowerCase url) (toLowerCase tried).

(** The entries that stay, in the specification's words: those with a
    text and a non-empty [priority] attribute that neither the
    blacklist nor the already-tried list rejects. *)
Definition kept (alreadyTriedUrls : option (list string)) (elem : Element) : bool :=
  JS.truthy (text elem)
  && JS.truthy_opt (attr "priority" (attribs elem))
  && negb (isUrlBlackListed toLowerCase (text elem))
  && negb (filterOutUrl toLowerCase (text elem) alreadyTriedUrls).

Definition toMirror (elem : Element) : IMirror :=
  {| priority := unaryPlus ToNumber (attr "priority" (attribs elem));
     url := text elem |}.

Definition candidates (alreadyTriedUrls : option (list string)) (data : Document)
  : list IMirror :=
  map toMirror (filter (kept alreadyTriedUrls) data).

End Vocabulary.

(** ** Documents for the examples *)

Definition release_4_7_0_url : string :=
  "https://download.qt.io/official_releases/qt-installer-framework/4.7.0/".

Definition arm64_run : Element :=
  Reference.anchor "arm64 installer" "QtInstallerFramework-linux-arm64-4.7.0.run".

Definition x64_run : Element :=
  Reference.anchor "x64 installer" "QtInstallerFramework-linux-x64-4.7.0.run".

(** A release listing with two "run" installers, the arm64 one first. *)
Definition release_4_7_0_listing : Document :=
  [Reference.anchor "Parent Directory" "../"; arm64_run; x64_run].

Definition mirror_a : string := "https://mirror-a.example.org/qtifw/installer.run".
Definition mirror_b : string := "https://mirror-b.example.org/qtifw/installer.run".
Definition mirror_c : string := "https://mirror-c.example.org/qtifw/installer.run".
Definition installer_url : string :=
  "https://download.qt.io/official_releases/qt-installer-framework/4.6.0/installer.run".

(** The network that serves [data] as the metalink of [installer_url]. *)
Definition metalink (data : Document) : string -> option Document :=
  Reference.serving (metaUrlOf installer_url) data.

(** The example of the specification: priorities 20, 10, 10. *)
Definition three_mirrors : Document :=
  [ Reference.mirror "20" mirror_a;
    Reference.mirror "10" mirror_b;
    Reference.mirror "10" mirror_c ].

(** * Properties *)

(** ** Strings *)

Lemma prefix_app (t s : string) : prefix t (t ++ s) = true.
Proof.
  induction t as [|c t IH]; simpl.
  - destruct s; reflexivity.
  - destruct (ascii_dec c c) as [_|Hc]; [exact IH | contradiction].
Qed.

Lemma prefix_split (t s : string) :
  prefix t s = true -> exists r, s = t ++ r.
Proof.
  revert s; induction t as [|c t IH]; intros s H.
  - exists s; reflexivity.
  - destruct s as [|d s]; simpl in H; [discriminate|].
    destruct (ascii_dec c d) as [->|_]; [|discriminate].
    destruct (IH s H) as [r ->]. exists r; reflexivity.
Qed.

(** [includes] finds exactly the contiguous occurrences. *)
Lemma includes_spec (s t : string) :
  JS.includes s t = true <-> exists a b, s = a ++ t ++ b.
Proof.
  split.
  - induction s as [|c s IH]; cbn [JS.includes]; intros H.
    + rewrite orb_false_r in H. destruct (prefix_split _ _ H) as [r Hr].
      exists "", r; exact Hr.
    + apply orb_true_iff in H as [H|H].
      * destruct (prefix_split _ _ H) as [r Hr]. exists "", r; exact Hr.
      * destruct (IH H) as (a & b & ->). exists (String c a), b; reflexivity.
  - intros (a & b & ->). induction a as [|c a IH].
    + change ("" ++ t ++ b) with (t ++ b).
      destruct (t ++ b) as [|d r] eqn:E; cbn [JS.includes];
        rewrite <- E, prefix_app; reflexivity.
    + change (String c a ++ t ++ b) with (String c (a ++ t ++ b)).
      cbn [JS.includes]. rewrite IH. apply orb_true_r.
Qed.

Lemma length_app (a b : string) :
  String.length (a ++ b) = String.length a + String.length b.
Proof. induction a; simpl; congruence. Qed.

Lemma substring_all (e : string) : substring 0 (String.length e) e = e.
Proof. induction e; simpl; congruence. Qed.

Lemma substring_skip (p e : string) (n : nat) :
  substring (String.length p) n (p ++ e) = substring 0 n e.
Proof. induction p; simpl; auto. Qed.

Lemma substring_tail (s : string) (k : nat) :
  k <= String.length s ->
  exists p, s = p ++ substring k (String.length s - k) s.
Proof.
  revert k; induction s as [|c s IH]; intros k Hk.
  - exists "". destruct k; reflexivity.
  - destruct k as [|k].
    + exists "". simpl. rewrite substring_all. reflexivity.
    + simpl in Hk. destruct (IH k) as [p Hp]; [lia|].
      exists (String c p). simpl. rewrite <- Hp. reflexivity.
Qed.

(** [endsWith] holds exactly of the strings with that ending. *)
Lemma endsWith_spec (s e : string) :
  JS.endsWith s e = true <-> exists p, s = p ++ e.
Proof.
  unfold JS.endsWith. rewrite andb_true_iff, Nat.leb_le, String.eqb_eq. split.
  - intros [Hle Hsub].
    destruct (substring_tail s (String.length s - String.length e)) as [p Hp]; [lia|].
    replace (String.length s - (String.length s - String.length e))
      with (String.length e) in Hp by lia.
    rewrite Hsub in Hp. exists p; exact Hp.
  - intros [p ->]. rewrite length_app. split; [lia|].
    replace (String.length p + String.length e - String.length e)
      with (String.length p) by lia.
    rewrite substring_skip. apply substring_all.
Qed.

Lemma endsWith_truthy (s e : string) :
  e <> "" -> JS.endsWith s e = true -> JS.truthy s = true.
Proof.
  intros He H. apply endsWith_spec in H as [p ->].
  unfold JS.truthy. destruct p; [|reflexivity].
  destruct e; [contradiction | reflexivity].
Qed.

(** ** Platform to extension *)

Section PlatformProperties.
Variables PLATFORM_WINDOWS PLATFORM_DARWIN PLATFORM_LINUX : string.

Lemma getInstallerExtension_unknown (platform : string) :
  platform <> PLATFORM_WINDOWS ->
  platform <> PLATFORM_DARWIN ->
  platform <> PLATFORM_LINUX ->
  getInstallerExtension PLATFORM_WINDOWS PLATFORM_DARWIN PLATFORM_LINUX platform
  = Err (Throw ("Unknown platform '" ++ platform ++ "'")).
Proof.
  intros Hw Hd Hl. unfold getInstallerExtension.
  apply String.eqb_neq in Hw, Hd, Hl. rewrite Hw, Hd, Hl. reflexivity.
Qed.

(** C6.  With the three platform constants pairwise distinct,
    [getInstallerExtension] sends the Windows token to "exe", the Darwin
    token to "dmg" and the Linux token to "run", and on every other
    string it throws "Unknown platform '...'" with that very string
    inside.  Being a function of its argument alone, it is pure. *)
Theorem getInstallerExtension_table :
  PLATFORM_WINDOWS <> PLATFORM_DARWIN ->
  PLATFORM_WINDOWS <> PLATFORM_LINUX ->
  PLATFORM_DARWIN <> PLATFORM_LINUX ->
  getInstallerExtension PLATFORM_WINDOWS PLATFORM_DARWIN PLATFORM_LINUX
    PLATFORM_WINDOWS = Ok "exe"
  /\ getInstallerExtension PLATFORM_WINDOWS PLATFORM_DARWIN PLATFORM_LINUX
       PLATFORM_DARWIN = Ok "dmg"
  /\ getInstallerExtension PLATFORM_WINDOWS PLATFORM_DARWIN PLATFORM_LINUX
       PLATFORM_LINUX = Ok "run"
  /\ forall platform,
       platform <> PLATFORM_WINDOWS ->
       platform <> PLATFORM_DARWIN ->
       platform <> PLATFORM_LINUX ->
       getInstallerExtension PLATFORM_WINDOWS PLATFORM_DARWIN PLATFORM_LINUX
         platform
       = Err (Throw ("Unknown platform '" ++ platform ++ "'")).
Proof.
  intros Hwd Hwl Hdl. unfold getInstallerExtension.
  repeat split.
  - rewrite String.eqb_refl. reflexivity.
  - assert (Hdw : PLATFORM_DARWIN <> PLATFORM_WINDOWS) by congruence.
    apply String.eqb_neq in Hdw. rewrite Hdw, String.eqb_refl. reflexivity.
  - assert (Hlw : PLATFORM_LINUX <> PLATFORM_WINDOWS) by congruence.
    assert (Hld : PLATFORM_LINUX <> PLATFORM_DARWIN) by congruence.
    apply String.eqb_neq in Hlw, Hld.
    rewrite Hlw, Hld, String.eqb_refl. reflexivity.
  - apply getInstallerExtension_unknown.
Qed.
End PlatformProperties.

Lemma getInstallerExtension_table_witness :
  getInstallerExtension "win32" "darwin" "linux" "win32" = Ok "exe"
  /\ getInstallerExtension "win32" "darwin" "linux" "darwin" = Ok "dmg"
  /\ getInstallerExtension "win32" "darwin" "linux" "linux" = Ok "run"
  /\ forall platform,
       platform <> "win32" -> platform <> "darwin" -> platform <> "linux" ->
       getInstallerExtension "win32" "darwin" "linux" platform
       = Err (Throw ("Unknown platform '" ++ platform ++ "'")).
Proof.
  apply (getInstallerExtension_table "win32" "darwin" "linux"); discriminate.
Defined.

(** ** The order on versions *)

Ltac semver_order :=
  unfold semver.gte, semver.lt, semver.compare, semver.compareMain,
    semver.compareIdentifiers, semver.orElse in *;
  repeat match goal with
    | H : context [(?x ?= ?y)%N] |- _ => destruct (N.compare_spec x y)
    | |- context [(?x ?= ?y)%N] => destruct (N.compare_spec x y)
    end;
  try discriminate; try congruence; try lia.

Lemma compare_refl (a : semver.SemVer) : semver.compare a a = Eq.
Proof. semver_order. Qed.

Lemma compare_antisym (a b : semver.SemVer) :
  semver.compare a b <> Lt -> semver.compare b a <> Gt.
Proof. intros H. semver_order. Qed.

Lemma compare_below_trans (a b c : semver.SemVer) :
  semver.compare a b <> Gt -> semver.compare b c = Lt -> semver.compare a c <> Gt.
Proof. intros H1 H2. semver_order. Qed.

Lemma compare_Eq_same (a b : semver.SemVer) :
  semver.compare a b = Eq -> a = b.
Proof.
  intros H. destruct a as [a1 a2 a3], b as [b1 b2 b3].
  unfold semver.compare, semver.compareMain, semver.compareIdentifiers,
    semver.orElse in H; simpl in H.
  destruct (N.compare_spec a1 b1); try discriminate.
  destruct (N.compare_spec a2 b2); try discriminate.
  destruct (N.compare_spec a3 b3); try discriminate.
  subst. reflexivity.
Qed.

(** ** Version resolution *)

Section VersionResolverProperties.
Variable coerce : string -> option semver.SemVer.
Variable Range : string -> option (semver.SemVer -> bool).

Lemma fold_pushVersion (html : Document) (acc : list semver.SemVer) :
  fold_left (pushVersion coerce) html acc = (acc ++ coercedLabels coerce html)%list.
Proof.
  revert acc; induction html as [|e html IH]; intros acc; simpl.
  - rewrite app_nil_r. reflexivity.
  - rewrite IH. unfold pushVersion.
    destruct (coerce (text e)); [rewrite <- app_assoc|]; reflexivity.
Qed.

Lemma parseQtIndex_coercedLabels (html : Document) :
  parseQtIndex coerce html = coercedLabels coerce html.
Proof. unfold parseQtIndex. apply fold_pushVersion. Qed.

Lemma In_coercedLabels (html : Document) (v : semver.SemVer) :
  In v (coercedLabels coerce html)
  <-> exists elem, In elem html /\ coerce (text elem) = Some v.
Proof.
  unfold coercedLabels. rewrite in_flat_map. split.
  - intros (e & He & Hv). exists e. split; [exact He|].
    destruct (coerce (text e)) as [u|]; simpl in Hv; [|contradiction].
    destruct Hv as [->|[]]. reflexivity.
  - intros (e & He & Hv). exists e. split; [exact He|].
    rewrite Hv. left; reflexivity.
Qed.

Lemma keepMax_maxOf (test : semver.SemVer -> bool) (seen : list semver.SemVer)
    (max : option semver.SemVer) (v : semver.SemVer) :
  maxOf test seen max ->
  maxOf test (seen ++ [v]) (semver.keepMax test max v).
Proof.
  intros Hinv. unfold semver.keepMax.
  destruct (test v) eqn:Hv.
  - destruct max as [m|]; simpl in Hinv.
    + destruct Hinv as (Hin & Hm & Hmax).
      destruct (semver.compare m v) eqn:Hc; simpl.
      * repeat split; [apply in_or_app; auto | exact Hm |].
        intros w Hw Htw. apply in_app_or in Hw as [Hw|[<-|[]]]; [auto|].
        apply compare_antisym. congruence.
      * repeat split; [apply in_or_app; right; left; reflexivity | exact Hv |].
        intros w Hw Htw. apply in_app_or in Hw as [Hw|[<-|[]]].
        -- eapply compare_below_trans; [apply Hmax; eassumption | exact Hc].
        -- rewrite compare_refl. discriminate.
      * repeat split; [apply in_or_app; auto | exact Hm |].
        intros w Hw Htw. apply in_app_or in Hw as [Hw|[<-|[]]]; [auto|].
        apply compare_antisym. congruence.
    + simpl. repeat split; [apply in_or_app; right; left; reflexivity | exact Hv |].
      intros w Hw Htw. apply in_app_or in Hw as [Hw|[<-|[]]].
      * rewrite (Hinv w Hw) in Htw. discriminate.
      * rewrite compare_refl. discriminate.
  - destruct max as [m|]; simpl in *.
    + destruct Hinv as (Hin & Hm & Hmax).
      repeat split; [apply in_or_app; auto | exact Hm |].
      intros w Hw Htw. apply in_app_or in Hw as [Hw|[<-|[]]]; [auto|congruence].
    + intros w Hw. apply in_app_or in Hw as [Hw|[<-|[]]]; auto.
Qed.

Lemma fold_keepMax_maxOf (test : semver.SemVer -> bool)
    (versions seen : list semver.SemVer) (max : option semver.SemVer) :
  maxOf test seen max ->
  maxOf test (seen ++ versions) (fold_left (semver.keepMax test) versions max).
Proof.
  revert seen max; induction versions as [|v versions IH]; intros seen max Hinv.
  - rewrite app_nil_r. exact Hinv.
  - simpl. replace (seen ++ v :: versions)%list with ((seen ++ [v]) ++ versions)%list
      by (rewrite <- app_assoc; reflexivity).
    apply IH, keepMax_maxOf, Hinv.
Qed.

(** [maxSatisfying] finds a greatest version in range, and finds none
    only when no version is in range. *)
Lemma maxSatisfying_spec (versions : list semver.SemVer) (range : string) :
  match semver.maxSatisfying Range versions range with
  | Some m =>
      In m versions /\ semver.satisfies Range m range = true
      /\ forall w, In w versions -> semver.satisfies Range w range = true ->
                   semver.compare w m <> Gt
  | None => forall w, In w versions -> semver.satisfies Range w range = false
  end.
Proof.
  unfold semver.maxSatisfying, semver.satisfies.
  destruct (Range range) as [test|]; [|reflexivity].
  exact (fold_keepMax_maxOf test versions [] None
           (fun w (H : In w []) => match H with end)).
Qed.
End VersionResolverProperties.

(** C1.  When the listing is fetched and some label coerces to a
    version in the requested range, [requestQtIndex] returns the
    canonical text [major.minor.patch] of a coerced version [m] that is
    in range and that no coerced version in range exceeds in the order
    of [compare].  (This holds of every range text, the non-empty ones
    included.)  In particular, when the labels are "4.5.0", "4.6.1",
    "notaversion" and "Parent Directory", of which the library coerces
    the first two to 4.5.0 and 4.6.1 and the other two to nothing, and
    the range is "^4.5.0", which the library reads as at least 4.5.0
    and below 5.0.0, the answer is "4.6.1". *)
Theorem requestQtIndex_max_satisfying
    (coerce : string -> option semver.SemVer)
    (Range : string -> option (semver.SemVer -> bool))
    (axios_get : string -> option Document)
    (html : Document) (requestedVersion : string) :
  axios_get ROOT_QTIFW_URL = Some html ->
  ((exists elem v,
       In elem html /\ coerce (text elem) = Some v
       /\ semver.satisfies Range v requestedVersion = true) ->
   exists elem m,
     In elem html /\ coerce (text elem) = Some m
     /\ semver.satisfies Range m requestedVersion = true
     /\ (forall elem' w,
           In elem' html -> coerce (text elem') = Some w ->
           semver.satisfies Range w requestedVersion = true ->
           semver.compare w m <> Gt)
     /\ requestQtIndex coerce Range axios_get requestedVersion
        = Ok (semver.version m))
  /\
  ((forall label,
       In label (map text html)
       <-> In label ["4.5.0"; "4.6.1"; "notaversion"; "Parent Directory"]) ->
   coerce "4.5.0" = Some (release 4 5 0) ->
   coerce "4.6.1" = Some (release 4 6 1) ->
   coerce "notaversion" = None ->
   coerce "Parent Directory" = None ->
   requestedVersion = "^4.5.0" ->
   (forall v, semver.satisfies Range v "^4.5.0"
              = semver.gte v (release 4 5 0) && semver.lt v (release 5 0 0)) ->
   requestQtIndex coerce Range axios_get requestedVersion = Ok "4.6.1").
Proof.
  intros Hget.
  assert (General :
    (exists elem v,
        In elem html /\ coerce (text elem) = Some v
        /\ semver.satisfies Range v requestedVersion = true) ->
    exists elem m,
      In elem html /\ coerce (text elem) = Some m
      /\ semver.satisfies Range m requestedVersion = true
      /\ (forall elem' w,
            In elem' html -> coerce (text elem') = Some w ->
            semver.satisfies Range w requestedVersion = true ->
            semver.compare w m <> Gt)
      /\ requestQtIndex coerce Range axios_get requestedVersion
         = Ok (semver.version m)).
  { intros (e & v & He & Hv & Hsat).
    unfold requestQtIndex. rewrite Hget, parseQtIndex_coercedLabels.
    pose proof (maxSatisfying_spec Range (coercedLabels coerce html)
                  requestedVersion) as Hmax.
    destruct (semver.maxSatisfying Range (coercedLabels coerce html) requestedVersion)
      as [m|].
    - destruct Hmax as (Hin & Hm & Hle).
      apply In_coercedLabels in Hin as (em & Hem & Hcm).
      exists em, m. repeat split; try assumption.
      intros e' w He' Hw Hsw. apply Hle; [|exact Hsw].
      apply In_coercedLabels. exists e'; auto.
    - rewrite Hmax in Hsat; [discriminate|].
      apply In_coercedLabels. exists e; auto. }
  split; [exact General|].
  intros Hlabels H450 H461 Hnot Hparent -> Hrange.
  assert (Hhas : In "4.6.1" (map text html)) by (apply Hlabels; simpl; auto).
  apply in_map_iff in Hhas as (e461 & Ht461 & He461).
  destruct General as (e & m & He & Hm & Hsat & Hle & ->).
  { exists e461, (release 4 6 1). rewrite Ht461, Hrange. auto. }
  assert (Hlabel : In (text e) (map text html)) by (apply in_map; exact He).
  apply Hlabels in Hlabel. simpl in Hlabel.
  assert (Hbest : semver.compare (release 4 6 1) m <> Gt).
  { apply (Hle e461); [exact He461 | rewrite Ht461; exact H461 |].
    rewrite Hrange. reflexivity. }
  destruct Hlabel as [E|[E|[E|[E|[]]]]]; rewrite <- E in Hm.
  - rewrite H450 in Hm. injection Hm as <-. exfalso. apply Hbest. reflexivity.
  - rewrite H461 in Hm. injection Hm as <-. reflexivity.
  - rewrite Hnot in Hm. discriminate.
  - rewrite Hparent in Hm. discriminate.
Qed.

Lemma requestQtIndex_max_satisfying_witness :
  requestQtIndex Reference.coerce Reference.Range
    (Reference.serving ROOT_QTIFW_URL
       [ Reference.anchor "Parent Directory" "../";
         Reference.anchor "4.6.1" "4.6.1/";
         Reference.anchor "notaversion" "notaversion/";
         Reference.anchor "4.5.0" "4.5.0/" ])
    "^4.5.0"
  = Ok "4.6.1".
Proof.
  refine (proj2
    (requestQtIndex_max_satisfying Reference.coerce Reference.Range
       (Reference.serving ROOT_QTIFW_URL _) _ "^4.5.0" eq_refl)
    _ eq_refl eq_refl eq_refl eq_refl eq_refl _).
  - intros label; simpl; tauto.
  - intros v. reflexivity.
Defined.

(** C5.  When the listing is fetched and either no label coerces to a
    version or no coerced version is in the requested range,
    [requestQtIndex] throws an [Error] whose message lists every
    coerced version, in document order; it returns no value. *)
Theorem requestQtIndex_no_match
    (coerce : string -> option semver.SemVer)
    (Range : string -> option (semver.SemVer -> bool))
    (axios_get : string -> option Document)
    (html : Document) (requestedVersion : string) :
  axios_get ROOT_QTIFW_URL = Some html ->
  (coercedLabels coerce html = []
   \/ forall elem v,
        In elem html -> coerce (text elem) = Some v ->
        semver.satisfies Range v requestedVersion = false) ->
  requestQtIndex coerce Range axios_get requestedVersion
  = Err (ThrowError ("Invalid version given: available versions are: "
                     ++ versionsText (coercedLabels coerce html)))
  /\ forall value,
       requestQtIndex coerce Range axios_get requestedVersion <> Ok value.
Proof.
  intros Hget Hnone.
  assert (Hfail : requestQtIndex coerce Range axios_get requestedVersion
    = Err (ThrowError ("Invalid version given: available versions are: "
                       ++ versionsText (coercedLabels coerce html)))).
  { unfold requestQtIndex. rewrite Hget, parseQtIndex_coercedLabels.
    pose proof (maxSatisfying_spec Range (coercedLabels coerce html)
                  requestedVersion) as Hmax.
    destruct (semver.maxSatisfying Range (coercedLabels coerce html) requestedVersion)
      as [m|]; [exfalso | reflexivity].
    destruct Hmax as (Hin & Hm & _).
    destruct Hnone as [Hempty|Hout].
    - rewrite Hempty in Hin. exact Hin.
    - apply In_coercedLabels in Hin as (e & He & Hc).
      rewrite (Hout e m He Hc) in Hm. discriminate. }
  split; [exact Hfail|].
  intros value. rewrite Hfail. discriminate.
Qed.

Lemma requestQtIndex_no_match_witness :
  requestQtIndex Reference.coerce Reference.Range
    (Reference.serving ROOT_QTIFW_URL
       [ Reference.anchor "Parent Directory" "../";
         Reference.anchor "4.5.0" "4.5.0/";
         Reference.anchor "4.6.1" "4.6.1/" ])
    "^5.0.0"
  = Err (ThrowError "Invalid version given: available versions are: 4.5.0,4.6.1").
Proof.
  refine (proj1
    (requestQtIndex_no_match Reference.coerce Reference.Range
       (Reference.serving ROOT_QTIFW_URL _) _ "^5.0.0" eq_refl _)).
  right. intros elem v [<-|[<-|[<-|[]]]]; simpl; intros Hv;
    try discriminate; injection Hv as <-; reflexivity.
Defined.

(** ** Installer selection *)

Section ArtifactLocatorProperties.
Variable url_resolve : string -> string -> string.
Variable semver_gte : string -> string -> result bool.
Variable axios_get : string -> option Document.
Variables installerExtension arch : string.
Variables linux_has_arm64 windows_has_arm64 : bool.

Lemma selects_qualifies (link : string) :
  installerExtension <> "" ->
  selects installerExtension arch linux_has_arm64 windows_has_arm64 (Some link) = true
  <-> qualifies installerExtension arch linux_has_arm64 windows_has_arm64 link.
Proof.
  intros Hext. unfold selects, qualifies.
  destruct (JS.endsWith link installerExtension) eqn:Hend.
  - rewrite (endsWith_truthy link installerExtension Hext Hend). simpl.
    destruct (String.eqb_spec installerExtension "run") as [Hrun|Hrun];
      destruct (String.eqb_spec installerExtension "exe") as [Hexe|Hexe];
      destruct linux_has_arm64, windows_has_arm64, (JS.includes link arch);
      simpl; (split; intros H;
        [ split; [reflexivity|]; intros [[E1 E2]|[E1 E2]];
          solve [reflexivity | discriminate | congruence]
        | first [ reflexivity
                | destruct H as [_ H]; apply H;
                  first [ left; split; [assumption|reflexivity]
                        | right; split; [assumption|reflexivity] ] ] ]).
  - rewrite andb_false_r. simpl. split; [discriminate | intros [H _]; discriminate].
Qed.

(** A listing with a selected link has a last one. *)
Lemma last_selected_exists (data : Document) :
  (exists elem,
      In elem data
      /\ selects installerExtension arch linux_has_arm64 windows_has_arm64
           (attr "href" (attribs elem)) = true) ->
  exists before elem after,
    data = (before ++ elem :: after)%list
    /\ selects installerExtension arch linux_has_arm64 windows_has_arm64
         (attr "href" (attribs elem)) = true
    /\ forall later, In later after ->
         selects installerExtension arch linux_has_arm64 windows_has_arm64
           (attr "href" (attribs later)) = false.
Proof.
  induction data as [|e data IH]; intros (x & Hin & Hx); [contradiction|].
  destruct (existsb
              (fun elem =>
                 selects installerExtension arch linux_has_arm64
                   windows_has_arm64 (attr "href" (attribs elem)))
              data) eqn:Hrest.
  - apply existsb_exists in Hrest.
    destruct (IH Hrest) as (before & elem & after & -> & Hsel & Hafter).
    exists (e :: before), elem, after. repeat split; assumption.
  - exists [], e, data. repeat split.
    + destruct Hin as [->|Hin]; [exact Hx|].
      assert (Hsome : existsb
                (fun elem =>
                   selects installerExtension arch linux_has_arm64
                     windows_has_arm64 (attr "href" (attribs elem)))
                data = true)
        by (apply existsb_exists; exists x; auto).
      rewrite Hrest in Hsome. discriminate.
    + intros later Hlater.
      destruct (selects installerExtension arch linux_has_arm64
                  windows_has_arm64 (attr "href" (attribs later))) eqn:Hs;
        [|reflexivity].
      assert (Hsome : existsb
                (fun elem =>
                   selects installerExtension arch linux_has_arm64
                     windows_has_arm64 (attr "href" (attribs elem)))
                data = true)
        by (apply existsb_exists; exists later; auto).
      rewrite Hrest in Hsome. discriminate.
Qed.

Lemma fold_visitLink_unselected (qtPageUrl : string) (after : Document)
    (installerLink : string) :
  (forall later, In later after ->
     selects installerExtension arch linux_has_arm64 windows_has_arm64
       (attr "href" (attribs later)) = false) ->
  fold_left
    (visitLink url_resolve qtPageUrl installerExtension arch
       linux_has_arm64 windows_has_arm64)
    after installerLink
  = installerLink.
Proof.
  revert installerLink; induction after as [|e after IH]; intros acc Hnone.
  - reflexivity.
  - simpl. unfold visitLink at 2.
    rewrite (Hnone e (or_introl eq_refl)). apply IH.
    intros later Hin. apply Hnone. right; exact Hin.
Qed.

Lemma fold_visitLink_last (qtPageUrl : string) (before after : Document)
    (elem : Element) (link installerLink : string) :
  attr "href" (attribs elem) = Some link ->
  selects installerExtension arch linux_has_arm64 windows_has_arm64 (Some link) = true ->
  (forall later, In later after ->
     selects installerExtension arch linux_has_arm64 windows_has_arm64
       (attr "href" (attribs later)) = false) ->
  fold_left
    (visitLink url_resolve qtPageUrl installerExtension arch
       linux_has_arm64 windows_has_arm64)
    (before ++ elem :: after) installerLink
  = url_resolve qtPageUrl link.
Proof.
  intros Hhref Hsel Hafter.
  rewrite fold_left_app. simpl.
  rewrite fold_visitLink_unselected by exact Hafter.
  unfold visitLink. rewrite Hhref, Hsel. reflexivity.
Qed.

(** A listing none of whose links is selected leaves [installerLink]
    at its initial value, the empty string, and the guard
    [installerLink == null] lets it through. *)
Lemma getInstallerLink_nothing_selected (requestedVersion : string)
    (data : Document) :
  semver_gte requestedVersion "4.7.0" = Ok linux_has_arm64 ->
  semver_gte requestedVersion "4.8.1" = Ok windows_has_arm64 ->
  axios_get (qtPageUrlOf url_resolve requestedVersion) = Some data ->
  (forall elem, In elem data ->
     selects installerExtension arch linux_has_arm64 windows_has_arm64
       (attr "href" (attribs elem)) = false) ->
  getInstallerLinkForSpecificVersion url_resolve semver_gte axios_get
    requestedVersion installerExtension arch
  = Ok "".
Proof.
  intros Hl Hw Hget Hnone. unfold getInstallerLinkForSpecificVersion.
  rewrite Hl, Hw. simpl. rewrite Hget.
  rewrite fold_visitLink_unselected by exact Hnone. reflexivity.
Qed.
End ArtifactLocatorProperties.

(** C2.  For a release whose listing is fetched and a non-empty
    extension: a link is selected exactly when its path ends with the
    extension and, if the extension is "run" and the version is at least
    4.7.0, or "exe" and at least 4.8.1, contains the architecture; for
    "dmg" the ending alone decides.  If a link of the listing qualifies
    and no later link does, the function returns that link resolved
    against the address of the listing, whatever comes before it; and a
    listing with a qualifying link has such a last one. *)
Theorem getInstallerLink_last_qualifying
    (url_resolve : string -> string -> string)
    (semver_gte : string -> string -> result bool)
    (axios_get : string -> option Document)
    (requestedVersion installerExtension arch : string)
    (linux_has_arm64 windows_has_arm64 : bool) (data : Document) :
  installerExtension <> "" ->
  semver_gte requestedVersion "4.7.0" = Ok linux_has_arm64 ->
  semver_gte requestedVersion "4.8.1" = Ok windows_has_arm64 ->
  axios_get (qtPageUrlOf url_resolve requestedVersion) = Some data ->
  (forall link,
      selects installerExtension arch linux_has_arm64 windows_has_arm64
        (Some link) = true
      <-> qualifies installerExtension arch linux_has_arm64 windows_has_arm64
            link)
  /\ (forall link,
        qualifies "dmg" arch linux_has_arm64 windows_has_arm64 link
        <-> JS.endsWith link "dmg" = true)
  /\ (forall before elem link after,
        data = (before ++ elem :: after)%list ->
        attr "href" (attribs elem) = Some link ->
        qualifies installerExtension arch linux_has_arm64 windows_has_arm64
          link ->
        (forall later link',
            In later after -> attr "href" (attribs later) = Some link' ->
            ~ qualifies installerExtension arch linux_has_arm64
                windows_has_arm64 link') ->
        getInstallerLinkForSpecificVersion url_resolve semver_gte axios_get
          requestedVersion installerExtension arch
        = Ok (url_resolve (qtPageUrlOf url_resolve requestedVersion) link))
  /\ ((exists elem link,
          In elem data /\ attr "href" (attribs elem) = Some link
          /\ qualifies installerExtension arch linux_has_arm64
               windows_has_arm64 link) ->
      exists before elem link after,
        data = (before ++ elem :: after)%list
        /\ attr "href" (attribs elem) = Some link
        /\ qualifies installerExtension arch linux_has_arm64
             windows_has_arm64 link
        /\ (forall later link',
              In later after -> attr "href" (attribs later) = Some link' ->
              ~ qualifies installerExtension arch linux_has_arm64
                  windows_has_arm64 link')
        /\ getInstallerLinkForSpecificVersion url_resolve semver_gte
             axios_get requestedVersion installerExtension arch
           = Ok (url_resolve (qtPageUrlOf url_resolve requestedVersion) link)).
Proof.
  intros Hext Hl Hw Hget.
  assert (Hlast : forall before elem link after,
    data = (before ++ elem :: after)%list ->
    attr "href" (attribs elem) = Some link ->
    qualifies installerExtension arch linux_has_arm64 windows_has_arm64 link ->
    (forall later link',
        In later after -> attr "href" (attribs later) = Some link' ->
        ~ qualifies installerExtension arch linux_has_arm64
            windows_has_arm64 link') ->
    getInstallerLinkForSpecificVersion url_resolve semver_gte axios_get
      requestedVersion installerExtension arch
    = Ok (url_resolve (qtPageUrlOf url_resolve requestedVersion) link)).
  { intros before elem link after -> Hhref Hq Hlater.
    unfold getInstallerLinkForSpecificVersion.
    rewrite Hl, Hw. simpl. rewrite Hget.
    rewrite (fold_visitLink_last url_resolve installerExtension arch
               linux_has_arm64 windows_has_arm64 _ before after elem link ""
               Hhref).
    - reflexivity.
    - apply selects_qualifies; assumption.
    - intros later Hin.
      destruct (attr "href" (attribs later)) as [link'|] eqn:Hl';
        [|reflexivity].
      destruct (selects installerExtension arch linux_has_arm64
                  windows_has_arm64 (Some link')) eqn:Hs; [|reflexivity].
      exfalso. apply (Hlater later link' Hin Hl').
      apply selects_qualifies; assumption. }
  split; [|split; [|split]].
  - intros link. apply selects_qualifies, Hext.
  - intros link. unfold qualifies. split; [intros [H _]; exact H|].
    intros H. split; [exact H|]. intros [[E _]|[E _]]; discriminate.
  - exact Hlast.
  - intros (x & lx & Hin & Hhx & Hqx).
    destruct (last_selected_exists installerExtension arch linux_has_arm64
                windows_has_arm64 data)
      as (before & elem & after & Heq & Hsel & Hafter).
    { exists x. split; [exact Hin|]. rewrite Hhx.
      apply selects_qualifies; assumption. }
    destruct (attr "href" (attribs elem)) as [link|] eqn:Hhref;
      [|discriminate].
    assert (Hq : qualifies installerExtension arch linux_has_arm64
                   windows_has_arm64 link)
      by (apply selects_qualifies; assumption).
    assert (Hnone : forall later link',
              In later after -> attr "href" (attribs later) = Some link' ->
              ~ qualifies installerExtension arch linux_has_arm64
                  windows_has_arm64 link').
    { intros later link' Hlater Hl' Hq'.
      apply selects_qualifies in Hq'; [|exact Hext].
      specialize (Hafter later Hlater). rewrite Hl' in Hafter.
      rewrite Hafter in Hq'. discriminate. }
    exists before, elem, link, after.
    split; [exact Heq|]. split; [exact Hhref|]. split; [exact Hq|].
    split; [exact Hnone|].
    apply (Hlast before elem link after Heq Hhref Hq Hnone).
Qed.

Lemma getInstallerLink_last_qualifying_witness :
  getInstallerLinkForSpecificVersion Reference.url_resolve Reference.semver_gte
    (Reference.serving release_4_7_0_url release_4_7_0_listing)
    "4.7.0" "run" "arm64"
  = Ok (release_4_7_0_url ++ "QtInstallerFramework-linux-arm64-4.7.0.run").
Proof.
  refine (proj1 (proj2 (proj2
    (getInstallerLink_last_qualifying Reference.url_resolve Reference.semver_gte
       (Reference.serving release_4_7_0_url release_4_7_0_listing)
       "4.7.0" "run" "arm64" true false release_4_7_0_listing
       _ eq_refl eq_refl eq_refl)))
    [Reference.anchor "Parent Directory" "../"] arm64_run
    "QtInstallerFramework-linux-arm64-4.7.0.run" [x64_run]
    eq_refl eq_refl _ _).
  - discriminate.
  - split; [reflexivity | intros _; reflexivity].
  - intros later link' [<-|[]] Hhref [_ Harch].
    injection Hhref as <-.
    specialize (Harch (or_introl (conj eq_refl eq_refl))). discriminate.
Defined.

(** C4 (the code departs from it).  A listing with no installer for
    the extension: the function returns the empty string, where the
    specification has it throw "Couldn't locate specific installer
    ...".  [installerLink] starts as the empty string, which the guard
    [installerLink == null] does not catch. *)
Theorem getInstallerLink_not_found_returns_empty :
  getInstallerLinkForSpecificVersion Reference.url_resolve Reference.semver_gte
    (Reference.serving
       "https://download.qt.io/official_releases/qt-installer-framework/4.6.0/"
       [ Reference.anchor "Parent Directory" "../";
         Reference.anchor "windows installer"
           "QtInstallerFramework-windows-x64-4.6.0.exe" ])
    "4.6.0" "run" "x64"
  = Ok "".
Proof. reflexivity. Qed.

(** ** Mirror filtering *)

Section MirrorFilterProperties.
Variable toLowerCase : string -> string.
Variable ToNumber : string -> JS.Number.

Lemma fold_markIfIncluded (url : string) (urls : list string) (flag : bool) :
  fold_left (markIfIncluded toLowerCase url) urls flag
  = flag || existsb (mentions toLowerCase url) urls.
Proof.
  revert flag; induction urls as [|u urls IH]; intros flag; simpl.
  - rewrite orb_false_r. reflexivity.
  - rewrite IH. unfold markIfIncluded, mentions.
    destruct (JS.includes (toLowerCase url) (toLowerCase u)), flag; reflexivity.
Qed.

Lemma filterOutUrl_existsb (url : string) (urls : list string) :
  filterOutUrl toLowerCase url (Some urls) = existsb (mentions toLowerCase url) urls.
Proof. unfold filterOutUrl. apply fold_markIfIncluded. Qed.

Lemma pushMirror_kept (alreadyTriedUrls : option (list string))
    (mirrors : list IMirror) (elem : Element) :
  pushMirror toLowerCase ToNumber alreadyTriedUrls mirrors elem
  = if kept toLowerCase alreadyTriedUrls elem
    then (mirrors ++ [toMirror ToNumber elem])%list
    else mirrors.
Proof.
  unfold pushMirror, kept, toMirror.
  destruct (JS.truthy (text elem) && JS.truthy_opt (attr "priority" (attribs elem)));
    [|reflexivity].
  destruct (isUrlBlackListed toLowerCase (text elem)); [reflexivity|].
  destruct (filterOutUrl toLowerCase (text elem) alreadyTriedUrls); reflexivity.
Qed.

Lemma fold_pushMirror (alreadyTriedUrls : option (list string))
    (data : Document) (mirrors : list IMirror) :
  fold_left (pushMirror toLowerCase ToNumber alreadyTriedUrls) data mirrors
  = (mirrors ++ candidates toLowerCase ToNumber alreadyTriedUrls data)%list.
Proof.
  revert mirrors; induction data as [|e data IH]; intros mirrors; simpl.
  - rewrite app_nil_r. reflexivity.
  - rewrite IH, pushMirror_kept. unfold candidates. simpl.
    destruct (kept toLowerCase alreadyTriedUrls e);
      [rewrite <- app_assoc|]; reflexivity.
Qed.

Lemma collectMirrors_candidates (alreadyTriedUrls : option (list string))
    (data : Document) :
  collectMirrors toLowerCase ToNumber alreadyTriedUrls data
  = candidates toLowerCase ToNumber alreadyTriedUrls data.
Proof. unfold collectMirrors. apply fold_pushMirror. Qed.

Lemma collectMirrors_app (alreadyTriedUrls : option (list string))
    (before after : Document) :
  collectMirrors toLowerCase ToNumber alreadyTriedUrls (before ++ after)%list
  = (collectMirrors toLowerCase ToNumber alreadyTriedUrls before
     ++ collectMirrors toLowerCase ToNumber alreadyTriedUrls after)%list.
Proof.
  rewrite !collectMirrors_candidates. unfold candidates.
  rewrite filter_app, map_app. reflexivity.
Qed.

Lemma kept_one_more_tried (tried : list string) (u : string) (elem : Element) :
  kept toLowerCase (Some (tried ++ [u])%list) elem
  = kept toLowerCase (Some tried) elem
    && negb (mentions toLowerCase (text elem) u).
Proof.
  unfold kept. rewrite !filterOutUrl_existsb, existsb_app. simpl.
  rewrite orb_false_r, negb_orb, andb_assoc. reflexivity.
Qed.

Lemma kept_blacklist_tried (tried : list string) (elem : Element) :
  kept toLowerCase (Some (tried ++ blacklisteds)%list) elem
  = kept toLowerCase (Some tried) elem.
Proof.
  unfold kept, isUrlBlackListed. rewrite !filterOutUrl_existsb, existsb_app.
  destruct (existsb (mentions toLowerCase (text elem)) blacklisteds).
  - simpl. rewrite !andb_false_r. reflexivity.
  - rewrite orb_false_r. reflexivity.
Qed.

Lemma kept_blacklist_only (elem : Element) :
  kept toLowerCase (Some blacklisteds) elem = kept toLowerCase None elem.
Proof.
  unfold kept, isUrlBlackListed.
  change (filterOutUrl toLowerCase (text elem) None) with false.
  destruct (filterOutUrl toLowerCase (text elem) (Some blacklisteds));
    [rewrite !andb_false_r|]; reflexivity.
Qed.

Lemma kept_undefined_empty (elem : Element) :
  kept toLowerCase None elem = kept toLowerCase (Some []) elem.
Proof. reflexivity. Qed.
End MirrorFilterProperties.

(** ** The head of a sorted array *)

Section SortProperties.
Context {A : Type}.
Variable comparefn : A -> A -> JS.Number.

Lemma hd_insert (x : A) (run : list A) :
  hd_error (JS.insert comparefn x run)
  = match hd_error run with
    | None => Some x
    | Some h =>
        match JS.SortCompare comparefn x h with
        | Lt => Some x
        | _ => Some h
        end
    end.
Proof.
  destruct run as [|h run]; simpl; [reflexivity|].
  destruct (JS.SortCompare comparefn x h); reflexivity.
Qed.

Lemma In_insert (x y : A) (run : list A) :
  In y (JS.insert comparefn x run) -> y = x \/ In y run.
Proof.
  induction run as [|h run IH]; simpl.
  - intros [<-|[]]. left; reflexivity.
  - destruct (JS.SortCompare comparefn x h); simpl;
      intros [H|H]; auto; destruct (IH H); auto.
Qed.

Lemma In_fold_insert (y : A) (arr run : list A) :
  In y (fold_left (fun run x => JS.insert comparefn x run) arr run) ->
  In y arr \/ In y run.
Proof.
  revert run; induction arr as [|x arr IH]; intros run; simpl; [auto|].
  intros H. destruct (IH _ H) as [Hin|Hin]; [auto|].
  destruct (In_insert _ _ _ Hin) as [->|Hrun]; auto.
Qed.

(** Whatever the comparator answers, [sort] rearranges the array. *)
Lemma insert_permutation (x : A) (run : list A) :
  Permutation (JS.insert comparefn x run) (x :: run).
Proof.
  induction run as [|h run IH]; simpl; [reflexivity|].
  destruct (JS.SortCompare comparefn x h); try reflexivity;
    (rewrite IH; apply perm_swap).
Qed.

Lemma fold_insert_permutation (arr run : list A) :
  Permutation (fold_left (fun run x => JS.insert comparefn x run) arr run)
    (run ++ arr)%list.
Proof.
  revert run; induction arr as [|x arr IH]; intros run; simpl.
  - rewrite app_nil_r. reflexivity.
  - rewrite IH, insert_permutation. apply Permutation_middle.
Qed.

Lemma sort_permutation (arr : list A) : Permutation (JS.sort comparefn arr) arr.
Proof. unfold JS.sort. apply (fold_insert_permutation arr []). Qed.

Lemma insert_nonempty (x : A) (run : list A) : JS.insert comparefn x run <> [].
Proof.
  destruct run as [|h run]; simpl; [discriminate|].
  destruct (JS.SortCompare comparefn x h); discriminate.
Qed.

Lemma first_run_nonempty (arr run : list A) :
  run <> [] ->
  fold_left (fun run x => JS.insert comparefn x run) arr run <> [].
Proof.
  revert run; induction arr as [|x arr IH]; intros run Hrun; simpl;
    [exact Hrun | apply IH, insert_nonempty].
Qed.

Lemma sort_nonempty (arr : list A) :
  arr <> [] -> JS.sort comparefn arr <> [].
Proof.
  destruct arr as [|x arr]; [contradiction|]. intros _.
  unfold JS.sort. simpl. apply first_run_nonempty. discriminate.
Qed.

Lemma sort_nil : JS.sort comparefn [] = [].
Proof. reflexivity. Qed.

(** The head stays while nothing strictly below it arrives. *)
Lemma hd_fold_insert_stays (m : A) (arr run : list A) :
  hd_error run = Some m ->
  (forall x, In x arr -> JS.SortCompare comparefn x m <> Lt) ->
  hd_error (fold_left (fun run x => JS.insert comparefn x run) arr run) = Some m.
Proof.
  revert run; induction arr as [|x arr IH]; intros run Hhd Hafter; simpl.
  - exact Hhd.
  - apply IH.
    + rewrite hd_insert, Hhd.
      destruct (JS.SortCompare comparefn x m) eqn:Hc; try reflexivity.
      exfalso. exact (Hafter x (or_introl eq_refl) Hc).
    + intros y Hy. apply Hafter. right; exact Hy.
Qed.

(** The element that is strictly below all that precede it and that
    nothing later is strictly below ends up first. *)
Lemma hd_sort_first_least (before after : list A) (m : A) :
  (forall x, In x before -> JS.SortCompare comparefn m x = Lt) ->
  (forall x, In x after -> JS.SortCompare comparefn x m <> Lt) ->
  hd_error (JS.sort comparefn (before ++ m :: after)) = Some m.
Proof.
  intros Hbefore Hafter. unfold JS.sort.
  rewrite fold_left_app. simpl.
  apply hd_fold_insert_stays; [|exact Hafter].
  rewrite hd_insert.
  destruct (hd_error (fold_left (fun run x => JS.insert comparefn x run) before []))
    as [h|] eqn:Hh; [|reflexivity].
  assert (Hin : In h before).
  { destruct (fold_left (fun run x => JS.insert comparefn x run) before [])
      as [|h' run] eqn:Hrun; [discriminate|].
    injection Hh as ->.
    destruct (In_fold_insert h before []) as [H|[]]; [|exact H].
    rewrite Hrun. left; reflexivity. }
  rewrite (Hbefore h Hin). reflexivity.
Qed.
End SortProperties.

(** ** The order on numbers *)

Lemma Qcompare_sub_Lt (x y : Q) : (x ?= y)%Q = Lt -> (x - y ?= 0)%Q = Lt.
Proof. rewrite <- !Qlt_alt. intros H. lra. Qed.

Lemma Qcompare_sub_not_Lt (x y : Q) : (x ?= y)%Q <> Gt -> (y - x ?= 0)%Q <> Lt.
Proof. rewrite <- Qle_alt, <- Qlt_alt. intros H1 H2. lra. Qed.

Lemma lt_sub_negative (a b : JS.Number) :
  JS.lt a b = true ->
  match JS.sub a b with
  | JS.NegInfinity => True
  | JS.Fin v => (v ?= 0)%Q = Lt
  | _ => False
  end.
Proof.
  destruct a as [| |x|], b as [| |y|]; simpl; try discriminate; try (intros; exact I).
  destruct (x ?= y)%Q eqn:E; try discriminate. intros _.
  apply Qcompare_sub_Lt, E.
Qed.

Lemma le_sub_not_negative (a b : JS.Number) :
  JS.le a b = true ->
  match JS.sub b a with
  | JS.NegInfinity => False
  | JS.Fin v => (v ?= 0)%Q <> Lt
  | _ => True
  end.
Proof.
  destruct a as [| |x|], b as [| |y|]; simpl; try discriminate; try (intros; exact I).
  destruct (x ?= y)%Q eqn:E; try discriminate; intros _;
    apply Qcompare_sub_not_Lt; rewrite E; discriminate.
Qed.

Lemma le_refl (a : JS.Number) : JS.isNaN a = false -> JS.le a a = true.
Proof.
  destruct a as [| |x|]; simpl; try discriminate; try reflexivity.
  intros _. destruct (Qcompare_spec x x) as [H|H|H]; try reflexivity; lra.
Qed.

Lemma le_trans (a b c : JS.Number) :
  JS.le a b = true -> JS.le b c = true -> JS.le a c = true.
Proof.
  destruct a as [| |x|], b as [| |y|], c as [| |z|]; simpl;
    try discriminate; try reflexivity.
  destruct (Qcompare_spec x y), (Qcompare_spec y z), (Qcompare_spec x z);
    try discriminate; try reflexivity; intros _ _; lra.
Qed.

Lemma lt_le (a b : JS.Number) : JS.lt a b = true -> JS.le a b = true.
Proof.
  destruct a as [| |x|], b as [| |y|]; simpl; try discriminate; try reflexivity.
  destruct (x ?= y)%Q; try discriminate; reflexivity.
Qed.

Lemma le_lt_trans (a b c : JS.Number) :
  JS.le a b = true -> JS.lt b c = true -> JS.lt a c = true.
Proof.
  destruct a as [| |x|], b as [| |y|], c as [| |z|]; simpl;
    try discriminate; try reflexivity.
  destruct (Qcompare_spec x y), (Qcompare_spec y z), (Qcompare_spec x z);
    try discriminate; try reflexivity; intros _ _; lra.
Qed.

Lemma lt_trans (a b c : JS.Number) :
  JS.lt a b = true -> JS.lt b c = true -> JS.lt a c = true.
Proof. intros H1 H2. apply le_lt_trans with b; [apply lt_le, H1 | exact H2]. Qed.

(** Two numbers are comparable: [NaN] is the only exception. *)
Lemma le_or_lt (a b : JS.Number) :
  JS.isNaN a = false -> JS.isNaN b = false ->
  JS.le a b = true \/ JS.lt b a = true.
Proof.
  destruct a as [| |x|], b as [| |y|]; simpl; try discriminate; auto.
  intros _ _. rewrite <- (Qcompare_antisym x y).
  destruct (x ?= y)%Q; simpl; auto.
Qed.

(** ** Mirror selection *)

(** A non-empty array of mirrors whose priorities are numbers has a
    first entry of least priority. *)
Lemma first_least_exists (mirrors : list IMirror) :
  mirrors <> [] ->
  (forall m, In m mirrors -> JS.isNaN (priority m) = false) ->
  exists before m after,
    mirrors = (before ++ m :: after)%list
    /\ (forall x, In x before -> JS.lt (priority m) (priority x) = true)
    /\ (forall x, In x after -> JS.le (priority m) (priority x) = true).
Proof.
  induction mirrors as [|x rest IH]; intros Hne Hnum; [contradiction|].
  destruct rest as [|y rest'].
  - exists [], x, []. repeat split; intros z [].
  - destruct IH as (before & m & after & Heq & Hb & Ha).
    + discriminate.
    + intros z Hz. apply Hnum. right; exact Hz.
    + assert (Hm : In m (y :: rest')) by (rewrite Heq; apply in_elt).
      destruct (le_or_lt (priority x) (priority m)) as [Hle|Hlt].
      * apply Hnum. left; reflexivity.
      * apply Hnum. right; exact Hm.
      * exists [], x, (y :: rest'). repeat split; [intros z []|].
        intros z Hz. rewrite Heq in Hz.
        apply in_app_or in Hz as [Hz|[<-|Hz]].
        -- apply le_trans with (priority m); [exact Hle | apply lt_le, Hb, Hz].
        -- exact Hle.
        -- apply le_trans with (priority m); [exact Hle | apply Ha, Hz].
      * exists (x :: before), m, after. rewrite Heq. repeat split; [|exact Ha].
        intros z [<-|Hz]; [exact Hlt | apply Hb, Hz].
Qed.

Lemma SortCompare_byPriority_Lt (a b : IMirror) :
  JS.lt (priority a) (priority b) = true ->
  JS.SortCompare byPriority a b = Lt.
Proof.
  intros H. apply lt_sub_negative in H.
  unfold JS.SortCompare, byPriority.
  destruct (JS.sub (priority a) (priority b)); try contradiction; auto.
Qed.

Lemma SortCompare_byPriority_not_Lt (a b : IMirror) :
  JS.le (priority a) (priority b) = true ->
  JS.SortCompare byPriority b a <> Lt.
Proof.
  intros H. apply le_sub_not_negative in H.
  unfold JS.SortCompare, byPriority.
  destruct (JS.sub (priority b) (priority a)); try contradiction;
    try discriminate; auto.
Qed.

Lemma SortCompare_byPriority_Lt_inv (a b : IMirror) :
  JS.SortCompare byPriority a b = Lt ->
  JS.lt (priority a) (priority b) = true.
Proof.
  unfold JS.SortCompare, byPriority.
  destruct (priority a) as [| |x|], (priority b) as [| |y|]; simpl;
    try discriminate; try reflexivity.
  rewrite <- !Qlt_alt. intros H.
  destruct (Qcompare_spec x y) as [E|E|E]; [lra | reflexivity | lra].
Qed.

Lemma SortCompare_byPriority_not_Lt_inv (a b : IMirror) :
  JS.isNaN (priority a) = false ->
  JS.isNaN (priority b) = false ->
  JS.SortCompare byPriority a b <> Lt ->
  JS.le (priority b) (priority a) = true.
Proof.
  intros Ha Hb Hc.
  destruct (le_or_lt (priority b) (priority a) Hb Ha) as [H|H]; [exact H|].
  exfalso. apply Hc, SortCompare_byPriority_Lt, H.
Qed.

(** On priorities that are numbers, [sort] by priority leaves the
    array in ascending order. *)
Lemma insert_ascending (x : IMirror) (run : list IMirror) :
  numeric x -> Forall numeric run -> ascending run ->
  ascending (JS.insert byPriority x run).
Proof.
  intros Hx Hrun Hasc. induction Hasc as [|y run Hsorted IH Hy]; simpl.
  - repeat constructor.
  - apply Forall_cons_iff in Hrun as [Hny Hnrun].
    destruct (JS.SortCompare byPriority x y) eqn:Hc.
    + constructor; [apply IH, Hnrun|].
      assert (Hyx : JS.le (priority y) (priority x) = true)
        by (apply SortCompare_byPriority_not_Lt_inv; congruence).
      rewrite (Forall_forall _ _). intros z Hz.
      apply (Permutation_in _ (insert_permutation byPriority x run)) in Hz.
      destruct Hz as [<-|Hz]; [exact Hyx|].
      rewrite Forall_forall in Hy. apply Hy, Hz.
    + apply SortCompare_byPriority_Lt_inv in Hc.
      constructor; [constructor; assumption|].
      constructor; [apply lt_le, Hc|].
      rewrite Forall_forall in Hy |- *. intros z Hz.
      apply le_trans with (priority y); [apply lt_le, Hc | apply Hy, Hz].
    + constructor; [apply IH, Hnrun|].
      assert (Hyx : JS.le (priority y) (priority x) = true)
        by (apply SortCompare_byPriority_not_Lt_inv; congruence).
      rewrite (Forall_forall _ _). intros z Hz.
      apply (Permutation_in _ (insert_permutation byPriority x run)) in Hz.
      destruct Hz as [<-|Hz]; [exact Hyx|].
      rewrite Forall_forall in Hy. apply Hy, Hz.
Qed.

Lemma sort_ascending (mirrors : list IMirror) :
  Forall numeric mirrors -> ascending (JS.sort byPriority mirrors).
Proof.
  unfold JS.sort.
  assert (Hgen : forall arr run,
    Forall numeric arr -> Forall numeric run -> ascending run ->
    ascending (fold_left (fun run x => JS.insert byPriority x run) arr run)).
  { induction arr as [|x arr IH]; intros run Harr Hrun Hasc; simpl;
      [exact Hasc|].
    apply Forall_cons_iff in Harr as [Hx Harr].
    apply IH; [exact Harr | | apply insert_ascending; assumption].
    rewrite Forall_forall. intros z Hz.
    apply (Permutation_in _ (insert_permutation byPriority x run)) in Hz.
    destruct Hz as [<-|Hz]; [exact Hx|].
    rewrite Forall_forall in Hrun. apply Hrun, Hz. }
  intros Hnum. apply Hgen; [exact Hnum | constructor | constructor].
Qed.

Section MirrorResolverProperties.
Variable toLowerCase : string -> string.
Variable ToNumber : string -> JS.Number.

(** Once the document is fetched, the call fails only for want of a
    candidate. *)
Lemma getMirrorLink_after_fetch (axios_get : string -> option Document)
    (originalUrl : string) (alreadyTriedUrls : option (list string))
    (data : Document) :
  axios_get (metaUrlOf originalUrl) = Some data ->
  getMirrorLinkForSpecificLink toLowerCase ToNumber axios_get originalUrl
    alreadyTriedUrls
  = match JS.sort byPriority
            (collectMirrors toLowerCase ToNumber alreadyTriedUrls data) with
    | first :: _ => Ok (url first)
    | [] => Err (Throw ("Couldn't locate a single mirror on '"
                        ++ metaUrlOf originalUrl ++ "'"))
    end.
Proof.
  intros Hget. unfold getMirrorLinkForSpecificLink. rewrite Hget.
  destruct (collectMirrors toLowerCase ToNumber alreadyTriedUrls data)
    as [|m mirrors] eqn:Hm; [reflexivity|].
  simpl List.length. simpl Nat.eqb. cbv iota.
  destruct (JS.sort byPriority (m :: mirrors)) as [|first sorted] eqn:Hs;
    [exfalso | reflexivity].
  apply (sort_nonempty byPriority (m :: mirrors)); [discriminate | exact Hs].
Qed.
End MirrorResolverProperties.

(** C3, as amended.  When the metalink is fetched, some entry
    survives the filters and the priority of every surviving entry
    converts to a number (not to [NaN]), [getMirrorLinkForSpecificLink]
    returns the address of the first surviving entry of least priority:
    every surviving entry before it has a strictly greater priority and
    none after it has a smaller one. *)
Theorem getMirrorLink_lowest_priority
    (toLowerCase : string -> string) (ToNumber : string -> JS.Number)
    (axios_get : string -> option Document)
    (originalUrl : string) (alreadyTriedUrls : option (list string))
    (data : Document) :
  axios_get (metaUrlOf originalUrl) = Some data ->
  collectMirrors toLowerCase ToNumber alreadyTriedUrls data <> [] ->
  (forall m,
      In m (collectMirrors toLowerCase ToNumber alreadyTriedUrls data) ->
      JS.isNaN (priority m) = false) ->
  exists before m after,
    collectMirrors toLowerCase ToNumber alreadyTriedUrls data
    = (before ++ m :: after)%list
    /\ (forall x, In x before -> JS.lt (priority m) (priority x) = true)
    /\ (forall x, In x after -> JS.le (priority m) (priority x) = true)
    /\ getMirrorLinkForSpecificLink toLowerCase ToNumber axios_get originalUrl
         alreadyTriedUrls
       = Ok (url m).
Proof.
  intros Hget Hne Hnum.
  destruct (first_least_exists _ Hne Hnum) as (before & m & after & Heq & Hb & Ha).
  exists before, m, after. repeat split; try assumption.
  rewrite (getMirrorLink_after_fetch toLowerCase ToNumber axios_get originalUrl
             alreadyTriedUrls data Hget), Heq.
  assert (Hhd : hd_error (JS.sort byPriority (before ++ m :: after)) = Some m).
  { apply hd_sort_first_least.
    - intros x Hx. apply SortCompare_byPriority_Lt, Hb, Hx.
    - intros x Hx. apply SortCompare_byPriority_not_Lt, Ha, Hx. }
  destruct (JS.sort byPriority (before ++ m :: after)) as [|first sorted];
    [discriminate|].
  injection Hhd as ->. reflexivity.
Qed.

Lemma getMirrorLink_lowest_priority_witness :
  exists before m after,
    collectMirrors Reference.toLowerCase Reference.ToNumber None three_mirrors
    = (before ++ m :: after)%list
    /\ (forall x, In x before -> JS.lt (priority m) (priority x) = true)
    /\ (forall x, In x after -> JS.le (priority m) (priority x) = true)
    /\ getMirrorLinkForSpecificLink Reference.toLowerCase Reference.ToNumber
         (metalink three_mirrors) installer_url None
       = Ok (url m).
Proof.
  apply (getMirrorLink_lowest_priority Reference.toLowerCase Reference.ToNumber
           (metalink three_mirrors) installer_url None three_mirrors eq_refl).
  - discriminate.
  - intros m [<-|[<-|[<-|[]]]]; reflexivity.
Defined.

Example getMirrorLink_three_mirrors :
  getMirrorLinkForSpecificLink Reference.toLowerCase Reference.ToNumber
    (metalink three_mirrors) installer_url None
  = Ok mirror_b.
Proof. reflexivity. Qed.

(** C3 as stated fails.  The first entry has the priority text "abc",
    which converts to [NaN]; it survives the filters, every comparison
    with it answers [NaN], which [sort] reads as a tie, and it stays
    first.  The call returns it, not the entry of priority 10. *)
Lemma getMirrorLink_lowest_priority_counterexample :
  collectMirrors Reference.toLowerCase Reference.ToNumber None
    [Reference.mirror "abc" mirror_a; Reference.mirror "10" mirror_b]
  = [ {| priority := JS.NaN; url := mirror_a |};
      {| priority := JS.Fin (10 # 1); url := mirror_b |} ]
  /\ getMirrorLinkForSpecificLink Reference.toLowerCase Reference.ToNumber
       (metalink [Reference.mirror "abc" mirror_a; Reference.mirror "10" mirror_b])
       installer_url None
     = Ok mirror_a
  /\ mirror_a <> mirror_b.
Proof. repeat split. discriminate. Qed.

(** C7, as amended.  An entry with an empty text, or with no
    [priority] attribute or an empty one, is skipped: the candidates
    are those of the document without it.  An entry with a text and a
    non-empty [priority] that no filter rejects is a candidate whatever
    its priority converts to, [NaN] included.  And no entry makes the
    call fail: if the call returns a mirror on a document, it returns
    one on that document with the entry added. *)
Theorem malformed_entries
    (toLowerCase : string -> string) (ToNumber : string -> JS.Number)
    (alreadyTriedUrls : option (list string))
    (before after : Document) (elem : Element) :
  ((text elem = ""
    \/ attr "priority" (attribs elem) = None
    \/ attr "priority" (attribs elem) = Some "") ->
   collectMirrors toLowerCase ToNumber alreadyTriedUrls
     (before ++ elem :: after)%list
   = collectMirrors toLowerCase ToNumber alreadyTriedUrls
       (before ++ after)%list)
  /\ (forall p,
        text elem <> "" ->
        attr "priority" (attribs elem) = Some p ->
        p <> "" ->
        isUrlBlackListed toLowerCase (text elem) = false ->
        filterOutUrl toLowerCase (text elem) alreadyTriedUrls = false ->
        collectMirrors toLowerCase ToNumber alreadyTriedUrls
          (before ++ elem :: after)%list
        = (collectMirrors toLowerCase ToNumber alreadyTriedUrls before
           ++ {| priority := ToNumber p; url := text elem |}
           :: collectMirrors toLowerCase ToNumber alreadyTriedUrls after)%list)
  /\ (forall axios_get axios_get' originalUrl value,
        axios_get (metaUrlOf originalUrl) = Some (before ++ elem :: after)%list ->
        axios_get' (metaUrlOf originalUrl) = Some (before ++ after)%list ->
        getMirrorLinkForSpecificLink toLowerCase ToNumber axios_get'
          originalUrl alreadyTriedUrls = Ok value ->
        exists value',
          getMirrorLinkForSpecificLink toLowerCase ToNumber axios_get
            originalUrl alreadyTriedUrls = Ok value').
Proof.
  assert (Hsplit :
    collectMirrors toLowerCase ToNumber alreadyTriedUrls
      (before ++ elem :: after)%list
    = (collectMirrors toLowerCase ToNumber alreadyTriedUrls before
       ++ collectMirrors toLowerCase ToNumber alreadyTriedUrls [elem]
       ++ collectMirrors toLowerCase ToNumber alreadyTriedUrls after)%list).
  { change (elem :: after) with ([elem] ++ after)%list.
    rewrite !collectMirrors_app. reflexivity. }
  split; [|split].
  - intros Hbad. rewrite Hsplit, collectMirrors_app.
    replace (collectMirrors toLowerCase ToNumber alreadyTriedUrls [elem])
      with (@nil IMirror); [reflexivity|].
    unfold collectMirrors, pushMirror; simpl.
    destruct Hbad as [->|[->| ->]]; [reflexivity | | ];
      rewrite andb_false_r; reflexivity.
  - intros p Htext Hprio Hp Hblack Htried.
    rewrite Hsplit. f_equal.
    unfold collectMirrors, pushMirror; simpl.
    rewrite Hprio, Hblack, Htried. simpl. unfold JS.truthy.
    apply String.eqb_neq in Htext, Hp. rewrite Htext, Hp. reflexivity.
  - intros axios_get axios_get' originalUrl value Hget Hget'.
    rewrite (getMirrorLink_after_fetch toLowerCase ToNumber axios_get
               originalUrl alreadyTriedUrls _ Hget).
    rewrite (getMirrorLink_after_fetch toLowerCase ToNumber axios_get'
               originalUrl alreadyTriedUrls _ Hget').
    rewrite Hsplit, collectMirrors_app.
    set (front := collectMirrors toLowerCase ToNumber alreadyTriedUrls before).
    set (this := collectMirrors toLowerCase ToNumber alreadyTriedUrls [elem]).
    set (back := collectMirrors toLowerCase ToNumber alreadyTriedUrls after).
    intros Hok.
    assert (Hsome : (front ++ back)%list <> []).
    { intros Hnil. rewrite Hnil, sort_nil in Hok. discriminate. }
    assert (Hmore : (front ++ this ++ back)%list <> []).
    { intros Hnil. apply app_eq_nil in Hnil as [Hf Hrest].
      apply app_eq_nil in Hrest as [_ Hb]. apply Hsome.
      rewrite Hf, Hb. reflexivity. }
    pose proof (sort_nonempty byPriority _ Hmore) as Hsorted.
    destruct (JS.sort byPriority (front ++ this ++ back)) as [|first sorted];
      [contradiction|].
    exists (url first). reflexivity.
Qed.

Lemma malformed_entries_witness :
  collectMirrors Reference.toLowerCase Reference.ToNumber None
    ([Reference.mirror "20" mirror_a] ++ Reference.mirror "" mirror_c
       :: [Reference.mirror "10" mirror_b])%list
  = collectMirrors Reference.toLowerCase Reference.ToNumber None
      ([Reference.mirror "20" mirror_a] ++ [Reference.mirror "10" mirror_b])%list.
Proof.
  apply (proj1 (malformed_entries Reference.toLowerCase Reference.ToNumber None
                  [Reference.mirror "20" mirror_a] [Reference.mirror "10" mirror_b]
                  (Reference.mirror "" mirror_c))).
  right; right; reflexivity.
Defined.

(** C7 as stated fails.  The only entry has the priority text "abc",
    which converts to [NaN]: it is not skipped but is the one
    candidate, and the call returns its address. *)
Lemma malformed_entries_counterexample :
  Reference.ToNumber "abc" = JS.NaN
  /\ collectMirrors Reference.toLowerCase Reference.ToNumber None
       [Reference.mirror "abc" mirror_c]
     = [ {| priority := JS.NaN; url := mirror_c |} ]
  /\ getMirrorLinkForSpecificLink Reference.toLowerCase Reference.ToNumber
       (metalink [Reference.mirror "abc" mirror_c]) installer_url None
     = Ok mirror_c.
Proof. repeat split. Qed.

(** C8.  When the metalink is fetched and no entry is kept (each one
    lacks a text or a priority, or is rejected by the blacklist or by
    the already-tried list), [getMirrorLinkForSpecificLink] throws
    "Couldn't locate a single mirror on '...'" with the address of the
    metalink inside. *)
Theorem getMirrorLink_no_candidates
    (toLowerCase : string -> string) (ToNumber : string -> JS.Number)
    (axios_get : string -> option Document)
    (originalUrl : string) (alreadyTriedUrls : option (list string))
    (data : Document) :
  axios_get (metaUrlOf originalUrl) = Some data ->
  (forall elem, In elem data -> kept toLowerCase alreadyTriedUrls elem = false) ->
  getMirrorLinkForSpecificLink toLowerCase ToNumber axios_get originalUrl
    alreadyTriedUrls
  = Err (Throw ("Couldn't locate a single mirror on '"
                ++ metaUrlOf originalUrl ++ "'")).
Proof.
  intros Hget Hnone.
  rewrite (getMirrorLink_after_fetch toLowerCase ToNumber axios_get originalUrl
             alreadyTriedUrls data Hget).
  rewrite collectMirrors_candidates. unfold candidates.
  replace (filter (kept toLowerCase alreadyTriedUrls) data) with (@nil Element).
  - reflexivity.
  - symmetry. clear Hget. induction data as [|e data IH]; [reflexivity|]. simpl.
    rewrite (Hnone e (or_introl eq_refl)). apply IH.
    intros x Hx. apply Hnone. right; exact Hx.
Qed.

Lemma getMirrorLink_no_candidates_witness :
  getMirrorLinkForSpecificLink Reference.toLowerCase Reference.ToNumber
    (metalink
       [ Reference.mirror "1" "https://MIRRORS.ustc.edu.cn/qtifw/installer.run";
         Reference.mirror "2" mirror_a ])
    installer_url (Some ["mirror-a.example.org"])
  = Err (Throw ("Couldn't locate a single mirror on '"
                ++ metaUrlOf installer_url ++ "'")).
Proof.
  apply (getMirrorLink_no_candidates Reference.toLowerCase Reference.ToNumber
           (metalink
              [ Reference.mirror "1" "https://MIRRORS.ustc.edu.cn/qtifw/installer.run";
                Reference.mirror "2" mirror_a ])
           installer_url (Some ["mirror-a.example.org"]) _ eq_refl).
  intros elem [<-|[<-|[]]]; reflexivity.
Defined.

(** C9.  One more address in the already-tried list removes
    candidates and adds none: the new candidates are the old ones that
    do not mention it.  The blacklisted hosts in the already-tried list
    change nothing, alone or after other addresses. *)
Theorem mirror_filtering_monotone
    (toLowerCase : string -> string) (ToNumber : string -> JS.Number)
    (data : Document) (tried : list string) (u : string) :
  incl (collectMirrors toLowerCase ToNumber (Some (tried ++ [u])%list) data)
       (collectMirrors toLowerCase ToNumber (Some tried) data)
  /\ collectMirrors toLowerCase ToNumber (Some (tried ++ [u])%list) data
     = filter (fun m => negb (mentions toLowerCase (url m) u))
         (collectMirrors toLowerCase ToNumber (Some tried) data)
  /\ collectMirrors toLowerCase ToNumber (Some blacklisteds) data
     = collectMirrors toLowerCase ToNumber None data
  /\ collectMirrors toLowerCase ToNumber (Some (tried ++ blacklisteds)%list) data
     = collectMirrors toLowerCase ToNumber (Some tried) data.
Proof.
  assert (Hfilter :
    collectMirrors toLowerCase ToNumber (Some (tried ++ [u])%list) data
    = filter (fun m => negb (mentions toLowerCase (url m) u))
        (collectMirrors toLowerCase ToNumber (Some tried) data)).
  { rewrite !collectMirrors_candidates. unfold candidates.
    induction data as [|e data IH]; [reflexivity|]. simpl.
    rewrite kept_one_more_tried.
    destruct (kept toLowerCase (Some tried) e); simpl; [|exact IH].
    destruct (mentions toLowerCase (text e) u); simpl; [exact IH|].
    rewrite IH. reflexivity. }
  repeat split.
  - rewrite Hfilter. intros m Hm. apply filter_In in Hm. tauto.
  - exact Hfilter.
  - rewrite !collectMirrors_candidates. unfold candidates. f_equal.
    apply filter_ext. intros e. apply kept_blacklist_only.
  - rewrite !collectMirrors_candidates. unfold candidates. f_equal.
    apply filter_ext. intros e. apply kept_blacklist_tried.
Qed.

(** C10.  An absent already-tried list filters like an empty one:
    neither rejects an address, the candidates are the same and so is
    the outcome of the call. *)
Theorem alreadyTried_undefined_as_empty
    (toLowerCase : string -> string) (ToNumber : string -> JS.Number)
    (axios_get : string -> option Document)
    (originalUrl link : string) (data : Document) :
  filterOutUrl toLowerCase link None = false
  /\ filterOutUrl toLowerCase link (Some []) = false
  /\ collectMirrors toLowerCase ToNumber None data
     = collectMirrors toLowerCase ToNumber (Some []) data
  /\ getMirrorLinkForSpecificLink toLowerCase ToNumber axios_get originalUrl None
     = getMirrorLinkForSpecificLink toLowerCase ToNumber axios_get originalUrl
         (Some []).
Proof.
  assert (Hsame : forall d,
    collectMirrors toLowerCase ToNumber None d
    = collectMirrors toLowerCase ToNumber (Some []) d).
  { intros d. rewrite !collectMirrors_candidates. reflexivity. }
  split; [reflexivity|]. split; [reflexivity|]. split; [apply Hsame|].
  unfold getMirrorLinkForSpecificLink.
  destruct (axios_get (metaUrlOf originalUrl)) as [d|]; [|reflexivity].
  rewrite Hsame. reflexivity.
Qed.

(** ** The pipeline on one release

    The root listing has the version 4.6.0; its release listing has the
    single installer "installer.run".  4.6.0 is below 4.7.0, so the
    architecture plays no part. *)
Example pipeline_4_6_0 :
  requestQtIndex Reference.coerce Reference.Range
    (Reference.serving ROOT_QTIFW_URL
       [Reference.anchor "Parent Directory" "../"; Reference.anchor "4.6.0/" "4.6.0/"])
    "4.6.0"
  = Ok "4.6.0"
  /\ getInstallerLinkForSpecificVersion Reference.url_resolve Reference.semver_gte
       (Reference.serving (ROOT_QTIFW_URL ++ "4.6.0/")
          [Reference.anchor "installer.run" "installer.run"])
       "4.6.0" "run" "arm64"
     = Ok (ROOT_QTIFW_URL ++ "4.6.0/" ++ "installer.run").
Proof. split; reflexivity. Qed.

(** * Further properties of the resolvers *)

(** ** Platforms and extensions are in one-to-one correspondence *)

(** X1.  Whatever the three platform constants are, an extension that
    [getInstallerExtension] returns is "exe", "dmg" or "run", and two
    platforms with the same extension are the same platform. *)
Theorem getInstallerExtension_one_to_one
    (PLATFORM_WINDOWS PLATFORM_DARWIN PLATFORM_LINUX : string)
    (platform platform' ext : string) :
  getInstallerExtension PLATFORM_WINDOWS PLATFORM_DARWIN PLATFORM_LINUX platform
  = Ok ext ->
  (ext = "exe" \/ ext = "dmg" \/ ext = "run")
  /\ (getInstallerExtension PLATFORM_WINDOWS PLATFORM_DARWIN PLATFORM_LINUX
        platform' = Ok ext ->
      platform = platform').
Proof.
  unfold getInstallerExtension.
  destruct (String.eqb_spec platform PLATFORM_WINDOWS) as [Hw|Hw];
    [|destruct (String.eqb_spec platform PLATFORM_DARWIN) as [Hd|Hd];
      [|destruct (String.eqb_spec platform PLATFORM_LINUX) as [Hl|Hl]]];
    intros H; try discriminate; injection H as <-;
    (split; [tauto|]);
    (destruct (String.eqb_spec platform' PLATFORM_WINDOWS) as [Hw'|Hw'];
      [|destruct (String.eqb_spec platform' PLATFORM_DARWIN) as [Hd'|Hd'];
        [|destruct (String.eqb_spec platform' PLATFORM_LINUX) as [Hl'|Hl']]]);
    intros H'; try discriminate; congruence.
Qed.

Lemma getInstallerExtension_one_to_one_witness :
  ("dmg" = "exe" \/ "dmg" = "dmg" \/ "dmg" = "run")
  /\ (getInstallerExtension "win32" "darwin" "linux" "darwin" = Ok "dmg" ->
      "darwin" = "darwin").
Proof.
  apply (getInstallerExtension_one_to_one "win32" "darwin" "linux"
           "darwin" "darwin" "dmg").
  reflexivity.
Defined.

(** ** The answer of [requestQtIndex] depends on the set of versions *)

Lemma compare_Lt_Gt (a b : semver.SemVer) :
  semver.compare a b = Lt -> semver.compare b a = Gt.
Proof. intros H. semver_order. Qed.

Lemma compare_both_below (a b : semver.SemVer) :
  semver.compare a b <> Gt -> semver.compare b a <> Gt -> a = b.
Proof.
  intros Hab Hba. apply compare_Eq_same.
  destruct (semver.compare a b) eqn:E; [reflexivity | | contradiction].
  apply compare_Lt_Gt in E. contradiction.
Qed.

(** X2.  Two listings whose labels coerce to the same set of versions, in
    whatever order and however often, give the same version: the call
    returns [s] on the one exactly when it returns [s] on the other. *)
Theorem requestQtIndex_depends_on_version_set
    (coerce : string -> option semver.SemVer)
    (Range : string -> option (semver.SemVer -> bool))
    (axios_get axios_get' : string -> option Document)
    (html html' : Document) (requestedVersion s : string) :
  axios_get ROOT_QTIFW_URL = Some html ->
  axios_get' ROOT_QTIFW_URL = Some html' ->
  (forall v, In v (coercedLabels coerce html)
             <-> In v (coercedLabels coerce html')) ->
  requestQtIndex coerce Range axios_get requestedVersion = Ok s
  <-> requestQtIndex coerce Range axios_get' requestedVersion = Ok s.
Proof.
  intros Hget Hget' Hsame. unfold requestQtIndex.
  rewrite Hget, Hget', !parseQtIndex_coercedLabels.
  pose proof (maxSatisfying_spec Range (coercedLabels coerce html)
                requestedVersion) as Hmax.
  pose proof (maxSatisfying_spec Range (coercedLabels coerce html')
                requestedVersion) as Hmax'.
  destruct (semver.maxSatisfying Range (coercedLabels coerce html)
              requestedVersion) as [m|];
    destruct (semver.maxSatisfying Range (coercedLabels coerce html')
                requestedVersion) as [m'|].
  - destruct Hmax as (Hin & Hsat & Hle), Hmax' as (Hin' & Hsat' & Hle').
    assert (m = m') as ->; [|reflexivity].
    apply compare_both_below.
    + apply Hle'; [apply Hsame, Hin | exact Hsat].
    + apply Hle; [apply Hsame, Hin' | exact Hsat'].
  - destruct Hmax as (Hin & Hsat & _).
    rewrite (Hmax' m) in Hsat by (apply Hsame, Hin). discriminate.
  - destruct Hmax' as (Hin' & Hsat' & _).
    rewrite (Hmax m') in Hsat' by (apply Hsame, Hin'). discriminate.
  - split; discriminate.
Qed.

Lemma requestQtIndex_depends_on_version_set_witness :
  requestQtIndex Reference.coerce Reference.Range
    (Reference.serving ROOT_QTIFW_URL
       [Reference.anchor "4.5.0/" "4.5.0/"; Reference.anchor "4.6.1/" "4.6.1/"])
    "^4.5.0" = Ok "4.6.1"
  <-> requestQtIndex Reference.coerce Reference.Range
        (Reference.serving ROOT_QTIFW_URL
           [ Reference.anchor "v4.6.1" "4.6.1/";
             Reference.anchor "Parent Directory" "../";
             Reference.anchor "4.5.0/" "4.5.0/";
             Reference.anchor "4.6.1/" "4.6.1/" ])
        "^4.5.0" = Ok "4.6.1".
Proof.
  apply (requestQtIndex_depends_on_version_set Reference.coerce Reference.Range
           (Reference.serving ROOT_QTIFW_URL _) (Reference.serving ROOT_QTIFW_URL _)
           [Reference.anchor "4.5.0/" "4.5.0/"; Reference.anchor "4.6.1/" "4.6.1/"]
           [ Reference.anchor "v4.6.1" "4.6.1/";
             Reference.anchor "Parent Directory" "../";
             Reference.anchor "4.5.0/" "4.5.0/";
             Reference.anchor "4.6.1/" "4.6.1/" ]
           "^4.5.0" "4.6.1" eq_refl eq_refl).
  intros v. simpl. tauto.
Defined.

(** ** Every outcome of [getInstallerLinkForSpecificVersion] *)

Section ArtifactLocatorOutcomes.
Variable url_resolve : string -> string -> string.
Variables installerExtension arch : string.
Variables linux_has_arm64 windows_has_arm64 : bool.

Lemma fold_visitLink_filter (qtPageUrl : string) (data : Document)
    (installerLink : string) :
  fold_left
    (visitLink url_resolve qtPageUrl installerExtension arch
       linux_has_arm64 windows_has_arm64)
    data installerLink
  = fold_left
      (visitLink url_resolve qtPageUrl installerExtension arch
         linux_has_arm64 windows_has_arm64)
      (filter
         (fun elem =>
            selects installerExtension arch linux_has_arm64 windows_has_arm64
              (attr "href" (attribs elem)))
         data)
      installerLink.
Proof.
  revert installerLink; induction data as [|e data IH]; intros acc;
    [reflexivity|].
  simpl.
  destruct (selects installerExtension arch linux_has_arm64 windows_has_arm64
              (attr "href" (attribs e))) eqn:Hs.
  - simpl. apply IH.
  - rewrite <- IH. f_equal. unfold visitLink. rewrite Hs. reflexivity.
Qed.

Lemma fold_visitLink_arch (arch' qtPageUrl : string) (data : Document)
    (installerLink : string) :
  (installerExtension = "run" -> linux_has_arm64 = false) ->
  (installerExtension = "exe" -> windows_has_arm64 = false) ->
  fold_left
    (visitLink url_resolve qtPageUrl installerExtension arch
       linux_has_arm64 windows_has_arm64)
    data installerLink
  = fold_left
      (visitLink url_resolve qtPageUrl installerExtension arch'
         linux_has_arm64 windows_has_arm64)
      data installerLink.
Proof.
  intros Hrun Hexe.
  assert (Hsel : forall o,
    selects installerExtension arch linux_has_arm64 windows_has_arm64 o
    = selects installerExtension arch' linux_has_arm64 windows_has_arm64 o).
  { intros [link|]; [|reflexivity]. unfold selects.
    destruct (String.eqb_spec installerExtension "run") as [E|E];
      [rewrite (Hrun E)|];
      (destruct (String.eqb_spec installerExtension "exe") as [E'|E'];
        [rewrite (Hexe E')|]); reflexivity. }
  revert installerLink; induction data as [|e data IH]; intros acc;
    [reflexivity|].
  simpl. rewrite IH. f_equal. unfold visitLink. rewrite Hsel. reflexivity.
Qed.
End ArtifactLocatorOutcomes.

(** X3.  [getInstallerLinkForSpecificVersion] has three outcomes and
    no other.  A version that
    [semver.gte] refuses makes it throw what [semver.gte] throws, before
    any request.  A rejected request makes it throw "Failed request to
    '...'" with the address of the release listing.  Otherwise it
    returns: the empty string when no link of the listing is selected,
    and else the resolved path of a selected link of the listing.  It
    never throws "Couldn't locate specific installer ...". *)
Theorem getInstallerLink_outcomes
    (url_resolve : string -> string -> string)
    (semver_gte : string -> string -> result bool)
    (axios_get : string -> option Document)
    (requestedVersion installerExtension arch : string) :
  match semver_gte requestedVersion "4.7.0",
        semver_gte requestedVersion "4.8.1",
        axios_get (qtPageUrlOf url_resolve requestedVersion) with
  | Err thrown, _, _ =>
      getInstallerLinkForSpecificVersion url_resolve semver_gte axios_get
        requestedVersion installerExtension arch = Err thrown
  | Ok _, Err thrown, _ =>
      getInstallerLinkForSpecificVersion url_resolve semver_gte axios_get
        requestedVersion installerExtension arch = Err thrown
  | Ok _, Ok _, None =>
      getInstallerLinkForSpecificVersion url_resolve semver_gte axios_get
        requestedVersion installerExtension arch
      = Err (Throw ("Failed request to '"
                    ++ qtPageUrlOf url_resolve requestedVersion ++ "'"))
  | Ok linux_has_arm64, Ok windows_has_arm64, Some data =>
      (getInstallerLinkForSpecificVersion url_resolve semver_gte axios_get
         requestedVersion installerExtension arch = Ok ""
       /\ forall elem, In elem data ->
            selects installerExtension arch linux_has_arm64 windows_has_arm64
              (attr "href" (attribs elem)) = false)
      \/ (exists elem link,
            In elem data
            /\ attr "href" (attribs elem) = Some link
            /\ selects installerExtension arch linux_has_arm64
                 windows_has_arm64 (Some link) = true
            /\ getInstallerLinkForSpecificVersion url_resolve semver_gte
                 axios_get requestedVersion installerExtension arch
               = Ok (url_resolve (qtPageUrlOf url_resolve requestedVersion)
                       link))
  end.
Proof.
  unfold getInstallerLinkForSpecificVersion.
  destruct (semver_gte requestedVersion "4.7.0") as [l|e]; [|reflexivity].
  destruct (semver_gte requestedVersion "4.8.1") as [w|e]; [|reflexivity].
  simpl.
  destruct (axios_get (qtPageUrlOf url_resolve requestedVersion)) as [data|];
    [|reflexivity].
  destruct (existsb
              (fun elem =>
                 selects installerExtension arch l w (attr "href" (attribs elem)))
              data) eqn:Hany.
  - right. apply existsb_exists in Hany.
    destruct (last_selected_exists installerExtension arch l w data Hany)
      as (before & elem & after & -> & Hsel & Hafter).
    destruct (attr "href" (attribs elem)) as [link|] eqn:Hhref; [|discriminate].
    exists elem, link. split; [apply in_elt|]. split; [exact Hhref|].
    split; [exact Hsel|].
    rewrite (fold_visitLink_last url_resolve installerExtension arch l w _
               before after elem link "" Hhref Hsel Hafter).
    reflexivity.
  - left.
    assert (Hnone : forall elem, In elem data ->
              selects installerExtension arch l w (attr "href" (attribs elem))
              = false).
    { intros elem Hin.
      destruct (selects installerExtension arch l w (attr "href" (attribs elem)))
        eqn:Hs; [|reflexivity].
      assert (Hsome : existsb
                (fun elem =>
                   selects installerExtension arch l w
                     (attr "href" (attribs elem)))
                data = true)
        by (apply existsb_exists; exists elem; auto).
      rewrite Hany in Hsome. discriminate. }
    split; [|exact Hnone].
    rewrite fold_visitLink_unselected by exact Hnone. reflexivity.
Qed.

(** X4.  Links that are not selected play no part, wherever they
    stand: [getInstallerLinkForSpecificVersion] answers on a listing as
    it does on the listing cut down to its selected links. *)
Theorem getInstallerLink_ignores_unselected
    (url_resolve : string -> string -> string)
    (semver_gte : string -> string -> result bool)
    (axios_get axios_get' : string -> option Document)
    (requestedVersion installerExtension arch : string)
    (linux_has_arm64 windows_has_arm64 : bool) (data : Document) :
  semver_gte requestedVersion "4.7.0" = Ok linux_has_arm64 ->
  semver_gte requestedVersion "4.8.1" = Ok windows_has_arm64 ->
  axios_get (qtPageUrlOf url_resolve requestedVersion) = Some data ->
  axios_get' (qtPageUrlOf url_resolve requestedVersion)
  = Some (filter
            (fun elem =>
               selects installerExtension arch linux_has_arm64
                 windows_has_arm64 (attr "href" (attribs elem)))
            data) ->
  getInstallerLinkForSpecificVersion url_resolve semver_gte axios_get
    requestedVersion installerExtension arch
  = getInstallerLinkForSpecificVersion url_resolve semver_gte axios_get'
      requestedVersion installerExtension arch.
Proof.
  intros Hl Hw Hget Hget'. unfold getInstallerLinkForSpecificVersion.
  rewrite Hl, Hw. simpl. rewrite Hget, Hget'.
  rewrite fold_visitLink_filter. reflexivity.
Qed.

Lemma getInstallerLink_ignores_unselected_witness :
  getInstallerLinkForSpecificVersion Reference.url_resolve Reference.semver_gte
    (Reference.serving release_4_7_0_url release_4_7_0_listing)
    "4.7.0" "run" "arm64"
  = getInstallerLinkForSpecificVersion Reference.url_resolve Reference.semver_gte
      (Reference.serving release_4_7_0_url [arm64_run])
      "4.7.0" "run" "arm64".
Proof.
  apply (getInstallerLink_ignores_unselected Reference.url_resolve
           Reference.semver_gte
           (Reference.serving release_4_7_0_url release_4_7_0_listing)
           (Reference.serving release_4_7_0_url [arm64_run])
           "4.7.0" "run" "arm64" true false release_4_7_0_listing
           eq_refl eq_refl eq_refl eq_refl).
Defined.

(** X5.  Where the release has no installer per architecture (the extension
    is not "run" or the version is below 4.7.0, and it is not "exe" or
    the version is below 4.8.1), the architecture plays no part: any two
    give the same outcome. *)
Theorem getInstallerLink_arch_irrelevant
    (url_resolve : string -> string -> string)
    (semver_gte : string -> string -> result bool)
    (axios_get : string -> option Document)
    (requestedVersion installerExtension arch arch' : string)
    (linux_has_arm64 windows_has_arm64 : bool) :
  semver_gte requestedVersion "4.7.0" = Ok linux_has_arm64 ->
  semver_gte requestedVersion "4.8.1" = Ok windows_has_arm64 ->
  (installerExtension = "run" -> linux_has_arm64 = false) ->
  (installerExtension = "exe" -> windows_has_arm64 = false) ->
  getInstallerLinkForSpecificVersion url_resolve semver_gte axios_get
    requestedVersion installerExtension arch
  = getInstallerLinkForSpecificVersion url_resolve semver_gte axios_get
      requestedVersion installerExtension arch'.
Proof.
  intros Hl Hw Hrun Hexe. unfold getInstallerLinkForSpecificVersion.
  rewrite Hl, Hw. simpl.
  destruct (axios_get (qtPageUrlOf url_resolve requestedVersion)) as [data|];
    [|reflexivity].
  rewrite (fold_visitLink_arch url_resolve installerExtension arch
             linux_has_arm64 windows_has_arm64 arch' _ data "" Hrun Hexe).
  reflexivity.
Qed.

Lemma getInstallerLink_arch_irrelevant_witness :
  getInstallerLinkForSpecificVersion Reference.url_resolve Reference.semver_gte
    (Reference.serving release_4_7_0_url release_4_7_0_listing)
    "4.7.0" "dmg" "arm64"
  = getInstallerLinkForSpecificVersion Reference.url_resolve Reference.semver_gte
      (Reference.serving release_4_7_0_url release_4_7_0_listing)
      "4.7.0" "dmg" "x64".
Proof.
  apply (getInstallerLink_arch_irrelevant Reference.url_resolve
           Reference.semver_gte
           (Reference.serving release_4_7_0_url release_4_7_0_listing)
           "4.7.0" "dmg" "arm64" "x64" true false eq_refl eq_refl);
    discriminate.
Defined.

(** ** What the mirror filters reject *)

Lemma includes_empty (s : string) : JS.includes s "" = true.
Proof. destruct s; reflexivity. Qed.

Lemma includes_refl (s : string) : JS.includes s s = true.
Proof.
  destruct s as [|c s]; [reflexivity|].
  cbn [JS.includes].
  replace (prefix (String c s) (String c s)) with true; [reflexivity|].
  symmetry. generalize (String c s). intros t.
  induction t as [|d t IH]; simpl; [reflexivity|].
  destruct (ascii_dec d d); [exact IH | contradiction].
Qed.

Lemma filter_length_lt {A : Type} (f : A -> bool) (l : list A) (x : A) :
  In x l -> f x = false -> List.length (filter f l) < List.length l.
Proof.
  induction l as [|y l IH]; intros Hin Hx; [contradiction|]. simpl.
  destruct Hin as [->|Hin].
  - rewrite Hx. pose proof (filter_length_le f l). lia.
  - specialize (IH Hin Hx). destruct (f y); simpl; lia.
Qed.

(** X6.  [filterOutUrl] rejects an address exactly when, letter case aside,
    it contains one of the listed texts; with no list it rejects
    nothing.  So the order of the list and repeated entries do not
    matter, and a longer list rejects at least as much. *)
Theorem filterOutUrl_iff
    (toLowerCase : string -> string) (link : string) (urls : list string) :
  filterOutUrl toLowerCase link None = false
  /\ (filterOutUrl toLowerCase link (Some urls) = true
      <-> exists tried,
            In tried urls
            /\ JS.includes (toLowerCase link) (toLowerCase tried) = true).
Proof.
  split; [reflexivity|].
  rewrite filterOutUrl_existsb, existsb_exists. reflexivity.
Qed.

Section MirrorOutcomes.
Variable toLowerCase : string -> string.
Variable ToNumber : string -> JS.Number.

(** The mirror a call returns is the first of the sorted candidates. *)
Lemma getMirrorLink_Ok_inv (axios_get : string -> option Document)
    (originalUrl : string) (alreadyTriedUrls : option (list string))
    (data : Document) (link : string) :
  axios_get (metaUrlOf originalUrl) = Some data ->
  getMirrorLinkForSpecificLink toLowerCase ToNumber axios_get originalUrl
    alreadyTriedUrls = Ok link ->
  exists elem,
    In elem data /\ kept toLowerCase alreadyTriedUrls elem = true
    /\ text elem = link
    /\ In (toMirror ToNumber elem)
         (collectMirrors toLowerCase ToNumber alreadyTriedUrls data).
Proof.
  intros Hget.
  rewrite (getMirrorLink_after_fetch toLowerCase ToNumber axios_get originalUrl
             alreadyTriedUrls data Hget).
  pose proof (sort_permutation byPriority
                (collectMirrors toLowerCase ToNumber alreadyTriedUrls data))
    as Hperm.
  destruct (JS.sort byPriority
              (collectMirrors toLowerCase ToNumber alreadyTriedUrls data))
    as [|first sorted]; [discriminate|].
  intros H. injection H as <-.
  assert (Hin : In first
                  (collectMirrors toLowerCase ToNumber alreadyTriedUrls data))
    by (apply (Permutation_in _ Hperm); left; reflexivity).
  pose proof Hin as Hin'.
  rewrite collectMirrors_candidates in Hin'. unfold candidates in Hin'.
  apply in_map_iff in Hin' as (elem & <- & Helem).
  apply filter_In in Helem as [Helem Hkept].
  exists elem. repeat split; assumption.
Qed.

Lemma collectMirrors_undefined (data : Document) :
  collectMirrors toLowerCase ToNumber None data
  = collectMirrors toLowerCase ToNumber (Some []) data.
Proof. rewrite !collectMirrors_candidates. reflexivity. Qed.

Lemma collectMirrors_one_more (tried : list string) (u : string)
    (data : Document) :
  collectMirrors toLowerCase ToNumber (Some (tried ++ [u])%list) data
  = filter (fun m => negb (mentions toLowerCase (url m) u))
      (collectMirrors toLowerCase ToNumber (Some tried) data).
Proof.
  rewrite !collectMirrors_candidates. unfold candidates.
  induction data as [|e data IH]; [reflexivity|]. simpl.
  rewrite kept_one_more_tried.
  destruct (kept toLowerCase (Some tried) e); simpl; [|exact IH].
  destruct (mentions toLowerCase (text e) u); simpl; [exact IH|].
  rewrite IH. reflexivity.
Qed.
End MirrorOutcomes.

(** X7.  A mirror that the call returns is the text of an entry of the
    metalink; it is not empty, the entry has a non-empty [priority]
    attribute, and neither the blacklist nor the already-tried list
    rejects it.  This holds whatever the priorities are. *)
Theorem getMirrorLink_returns_kept_entry
    (toLowerCase : string -> string) (ToNumber : string -> JS.Number)
    (axios_get : string -> option Document)
    (originalUrl : string) (alreadyTriedUrls : option (list string))
    (data : Document) (link : string) :
  axios_get (metaUrlOf originalUrl) = Some data ->
  getMirrorLinkForSpecificLink toLowerCase ToNumber axios_get originalUrl
    alreadyTriedUrls = Ok link ->
  link <> ""
  /\ isUrlBlackListed toLowerCase link = false
  /\ filterOutUrl toLowerCase link alreadyTriedUrls = false
  /\ exists elem p,
       In elem data /\ text elem = link
       /\ attr "priority" (attribs elem) = Some p /\ p <> "".
Proof.
  intros Hget Hok.
  destruct (getMirrorLink_Ok_inv toLowerCase ToNumber axios_get originalUrl
              alreadyTriedUrls data link Hget Hok)
    as (elem & Hin & Hkept & <- & _).
  unfold kept in Hkept.
  apply andb_true_iff in Hkept as [Hkept Htried].
  apply andb_true_iff in Hkept as [Hkept Hblack].
  apply andb_true_iff in Hkept as [Htext Hprio].
  apply negb_true_iff in Htried, Hblack.
  unfold JS.truthy in Htext. apply negb_true_iff, String.eqb_neq in Htext.
  repeat split; try assumption.
  destruct (attr "priority" (attribs elem)) as [p|] eqn:Hp; [|discriminate].
  simpl in Hprio. unfold JS.truthy in Hprio.
  apply negb_true_iff, String.eqb_neq in Hprio.
  exists elem, p. repeat split; assumption.
Qed.

Lemma getMirrorLink_returns_kept_entry_witness :
  mirror_b <> ""
  /\ isUrlBlackListed Reference.toLowerCase mirror_b = false
  /\ filterOutUrl Reference.toLowerCase mirror_b (Some [mirror_c]) = false
  /\ exists elem p,
       In elem three_mirrors /\ text elem = mirror_b
       /\ attr "priority" (attribs elem) = Some p /\ p <> "".
Proof.
  apply (getMirrorLink_returns_kept_entry Reference.toLowerCase
           Reference.ToNumber (metalink three_mirrors) installer_url
           (Some [mirror_c]) three_mirrors mirror_b);
    reflexivity.
Defined.

(** X8.  [getMirrorLinkForSpecificLink] never fails on reading the
    first sorted mirror: whatever
    the network, the document and the list, it does not throw a
    [TypeError].  Its only failures are the two strings it throws
    itself. *)
Theorem getMirrorLink_failures
    (toLowerCase : string -> string) (ToNumber : string -> JS.Number)
    (axios_get : string -> option Document)
    (originalUrl : string) (alreadyTriedUrls : option (list string))
    (thrown : exn) :
  getMirrorLinkForSpecificLink toLowerCase ToNumber axios_get originalUrl
    alreadyTriedUrls = Err thrown ->
  (axios_get (metaUrlOf originalUrl) = None
   /\ thrown = Throw ("Failed request to '" ++ metaUrlOf originalUrl ++ "'"))
  \/ (exists data,
        axios_get (metaUrlOf originalUrl) = Some data
        /\ collectMirrors toLowerCase ToNumber alreadyTriedUrls data = []
        /\ thrown = Throw ("Couldn't locate a single mirror on '"
                           ++ metaUrlOf originalUrl ++ "'")).
Proof.
  destruct (axios_get (metaUrlOf originalUrl)) as [data|] eqn:Hget.
  - rewrite (getMirrorLink_after_fetch toLowerCase ToNumber axios_get
               originalUrl alreadyTriedUrls data Hget).
    intros H. right. exists data. split; [reflexivity|].
    destruct (collectMirrors toLowerCase ToNumber alreadyTriedUrls data)
      as [|m mirrors] eqn:Hm.
    + rewrite sort_nil in H. injection H as <-. split; reflexivity.
    + exfalso.
      pose proof (sort_nonempty byPriority (m :: mirrors)) as Hne.
      destruct (JS.sort byPriority (m :: mirrors)); [|discriminate].
      apply Hne; [discriminate | reflexivity].
  - unfold getMirrorLinkForSpecificLink. rewrite Hget.
    intros H. injection H as <-. left. split; reflexivity.
Qed.

Lemma getMirrorLink_failures_witness :
  (metalink [Reference.mirror "1" "https://MIRRORS.ustc.edu.cn/qtifw/installer.run"]
     (metaUrlOf installer_url) = None
   /\ Throw ("Couldn't locate a single mirror on '"
             ++ metaUrlOf installer_url ++ "'")
      = Throw ("Failed request to '" ++ metaUrlOf installer_url ++ "'"))
  \/ (exists data,
        metalink
          [Reference.mirror "1" "https://MIRRORS.ustc.edu.cn/qtifw/installer.run"]
          (metaUrlOf installer_url) = Some data
        /\ collectMirrors Reference.toLowerCase Reference.ToNumber None data = []
        /\ Throw ("Couldn't locate a single mirror on '"
                  ++ metaUrlOf installer_url ++ "'")
           = Throw ("Couldn't locate a single mirror on '"
                    ++ metaUrlOf installer_url ++ "'")).
Proof.
  apply (getMirrorLink_failures Reference.toLowerCase Reference.ToNumber
           (metalink
              [Reference.mirror "1"
                 "https://MIRRORS.ustc.edu.cn/qtifw/installer.run"])
           installer_url None).
  reflexivity.
Defined.

Lemma filter_idempotent {A : Type} (f : A -> bool) (l : list A) :
  filter f (filter f l) = filter f l.
Proof.
  induction l as [|x l IH]; [reflexivity|]. simpl.
  destruct (f x) eqn:Hx; simpl; [rewrite Hx, IH|]; auto.
Qed.

Lemma filter_nothing {A : Type} (f : A -> bool) (l : list A) :
  (forall x, In x l -> f x = false) -> filter f l = [].
Proof.
  induction l as [|x l IH]; intros H; [reflexivity|]. simpl.
  rewrite (H x (or_introl eq_refl)). apply IH.
  intros y Hy. apply H. right; exact Hy.
Qed.

(** X9.  The retry loop makes progress.  When a call returns a mirror and
    the caller adds it to the already-tried list (starting a list if
    there was none), the filter rejects that mirror from then on: the
    next call on the same metalink has fewer candidates and does not
    return it again. *)
Theorem getMirrorLink_retry_progress
    (toLowerCase : string -> string) (ToNumber : string -> JS.Number)
    (axios_get : string -> option Document)
    (originalUrl : string) (alreadyTriedUrls : option (list string))
    (tried : list string) (data : Document) (link : string) :
  alreadyTriedUrls = Some tried \/ (alreadyTriedUrls = None /\ tried = []) ->
  axios_get (metaUrlOf originalUrl) = Some data ->
  getMirrorLinkForSpecificLink toLowerCase ToNumber axios_get originalUrl
    alreadyTriedUrls = Ok link ->
  filterOutUrl toLowerCase link (Some (tried ++ [link])%list) = true
  /\ List.length
       (collectMirrors toLowerCase ToNumber (Some (tried ++ [link])%list) data)
     < List.length (collectMirrors toLowerCase ToNumber alreadyTriedUrls data)
  /\ getMirrorLinkForSpecificLink toLowerCase ToNumber axios_get originalUrl
       (Some (tried ++ [link])%list) <> Ok link.
Proof.
  intros Htried Hget Hok.
  assert (Hself : mentions toLowerCase link link = true)
    by apply includes_refl.
  assert (Hreject :
    filterOutUrl toLowerCase link (Some (tried ++ [link])%list) = true).
  { rewrite filterOutUrl_existsb, existsb_app. simpl.
    rewrite Hself. rewrite orb_true_r. reflexivity. }
  split; [exact Hreject|]. split.
  - destruct (getMirrorLink_Ok_inv toLowerCase ToNumber axios_get originalUrl
                alreadyTriedUrls data link Hget Hok)
      as (elem & _ & _ & Htext & Hin).
    assert (Hsame :
      collectMirrors toLowerCase ToNumber alreadyTriedUrls data
      = collectMirrors toLowerCase ToNumber (Some tried) data).
    { destruct Htried as [->|[-> ->]];
        [reflexivity | apply collectMirrors_undefined]. }
    rewrite Hsame in Hin |- *. rewrite collectMirrors_one_more.
    apply filter_length_lt with (x := toMirror ToNumber elem); [exact Hin|].
    simpl. rewrite Htext, Hself. reflexivity.
  - intros Hagain.
    destruct (getMirrorLink_Ok_inv toLowerCase ToNumber axios_get originalUrl
                (Some (tried ++ [link])%list) data link Hget Hagain)
      as (elem & _ & Hkept & Htext & _).
    unfold kept in Hkept. apply andb_true_iff in Hkept as [_ Hnot].
    rewrite Htext, Hreject in Hnot. discriminate.
Qed.

Lemma getMirrorLink_retry_progress_witness :
  filterOutUrl Reference.toLowerCase mirror_b (Some ([] ++ [mirror_b])%list) = true
  /\ List.length
       (collectMirrors Reference.toLowerCase Reference.ToNumber
          (Some ([] ++ [mirror_b])%list) three_mirrors)
     < List.length
         (collectMirrors Reference.toLowerCase Reference.ToNumber None
            three_mirrors)
  /\ getMirrorLinkForSpecificLink Reference.toLowerCase Reference.ToNumber
       (metalink three_mirrors) installer_url (Some ([] ++ [mirror_b])%list)
     <> Ok mirror_b.
Proof.
  apply (getMirrorLink_retry_progress Reference.toLowerCase Reference.ToNumber
           (metalink three_mirrors) installer_url None [] three_mirrors
           mirror_b).
  - right. split; reflexivity.
  - reflexivity.
  - reflexivity.
Defined.

(** X10.  An empty text in the already-tried list rejects every mirror,
    since every address contains it: the call then fails for want of a
    candidate, whatever the metalink holds.  (The lower case of the
    empty string is the empty string.) *)
Theorem getMirrorLink_empty_tried_entry
    (toLowerCase : string -> string) (ToNumber : string -> JS.Number)
    (axios_get : string -> option Document)
    (originalUrl : string) (tried : list string) (data : Document) :
  toLowerCase "" = "" ->
  In "" tried ->
  axios_get (metaUrlOf originalUrl) = Some data ->
  (forall link, filterOutUrl toLowerCase link (Some tried) = true)
  /\ getMirrorLinkForSpecificLink toLowerCase ToNumber axios_get originalUrl
       (Some tried)
     = Err (Throw ("Couldn't locate a single mirror on '"
                   ++ metaUrlOf originalUrl ++ "'")).
Proof.
  intros Hlower Hin Hget.
  assert (Hall : forall link, filterOutUrl toLowerCase link (Some tried) = true).
  { intros link. rewrite filterOutUrl_existsb. apply existsb_exists.
    exists "". split; [exact Hin|].
    unfold mentions. rewrite Hlower. apply includes_empty. }
  split; [exact Hall|].
  rewrite (getMirrorLink_after_fetch toLowerCase ToNumber axios_get originalUrl
             (Some tried) data Hget).
  rewrite collectMirrors_candidates. unfold candidates.
  rewrite filter_nothing; [reflexivity|].
  intros elem _. unfold kept. rewrite Hall. apply andb_false_r.
Qed.

Lemma getMirrorLink_empty_tried_entry_witness :
  (forall link,
      filterOutUrl Reference.toLowerCase link (Some [mirror_a; ""]) = true)
  /\ getMirrorLinkForSpecificLink Reference.toLowerCase Reference.ToNumber
       (metalink three_mirrors) installer_url (Some [mirror_a; ""])
     = Err (Throw ("Couldn't locate a single mirror on '"
                   ++ metaUrlOf installer_url ++ "'")).
Proof.
  apply (getMirrorLink_empty_tried_entry Reference.toLowerCase
           Reference.ToNumber (metalink three_mirrors) installer_url
           [mirror_a; ""] three_mirrors).
  - reflexivity.
  - right; left; reflexivity.
  - reflexivity.
Defined.

(** X11.  Entries that are not kept play no part, wherever they stand: the
    call answers on a metalink as it does on the metalink cut down to
    its kept entries. *)
Theorem getMirrorLink_ignores_rejected
    (toLowerCase : string -> string) (ToNumber : string -> JS.Number)
    (axios_get axios_get' : string -> option Document)
    (originalUrl : string) (alreadyTriedUrls : option (list string))
    (data : Document) :
  axios_get (metaUrlOf originalUrl) = Some data ->
  axios_get' (metaUrlOf originalUrl)
  = Some (filter (kept toLowerCase alreadyTriedUrls) data) ->
  getMirrorLinkForSpecificLink toLowerCase ToNumber axios_get originalUrl
    alreadyTriedUrls
  = getMirrorLinkForSpecificLink toLowerCase ToNumber axios_get' originalUrl
      alreadyTriedUrls.
Proof.
  intros Hget Hget'.
  rewrite (getMirrorLink_after_fetch toLowerCase ToNumber axios_get originalUrl
             alreadyTriedUrls data Hget).
  rewrite (getMirrorLink_after_fetch toLowerCase ToNumber axios_get' originalUrl
             alreadyTriedUrls _ Hget').
  rewrite !collectMirrors_candidates. unfold candidates.
  rewrite filter_idempotent. reflexivity.
Qed.

Lemma getMirrorLink_ignores_rejected_witness :
  getMirrorLinkForSpecificLink Reference.toLowerCase Reference.ToNumber
    (metalink
       (Reference.mirror "1" "https://mirrors.ustc.edu.cn/qtifw/installer.run"
          :: three_mirrors))
    installer_url (Some [mirror_b])
  = getMirrorLinkForSpecificLink Reference.toLowerCase Reference.ToNumber
      (metalink
         [Reference.mirror "20" mirror_a; Reference.mirror "10" mirror_c])
      installer_url (Some [mirror_b]).
Proof.
  apply (getMirrorLink_ignores_rejected Reference.toLowerCase
           Reference.ToNumber
           (metalink
              (Reference.mirror "1"
                 "https://mirrors.ustc.edu.cn/qtifw/installer.run"
                 :: three_mirrors))
           (metalink
              [Reference.mirror "20" mirror_a; Reference.mirror "10" mirror_c])
           installer_url (Some [mirror_b])
           (Reference.mirror "1"
              "https://mirrors.ustc.edu.cn/qtifw/installer.run"
              :: three_mirrors)
           eq_refl eq_refl).
Defined.

(** ** Why [requestQtIndex] fails *)

(** X12.  [requestQtIndex] fails in two ways only: the request is
    rejected, and it
    throws "Failed request to '...'" with the address of the root
    listing; or the listing is fetched and no coerced version is in the
    requested range, and it throws the [Error] that lists the coerced
    versions. *)
Theorem requestQtIndex_failures
    (coerce : string -> option semver.SemVer)
    (Range : string -> option (semver.SemVer -> bool))
    (axios_get : string -> option Document)
    (requestedVersion : string) (thrown : exn) :
  requestQtIndex coerce Range axios_get requestedVersion = Err thrown ->
  (axios_get ROOT_QTIFW_URL = None
   /\ thrown = Throw ("Failed request to '" ++ ROOT_QTIFW_URL ++ "'"))
  \/ (exists html,
        axios_get ROOT_QTIFW_URL = Some html
        /\ (forall v, In v (coercedLabels coerce html) ->
                      semver.satisfies Range v requestedVersion = false)
        /\ thrown
           = ThrowError ("Invalid version given: available versions are: "
                         ++ versionsText (coercedLabels coerce html))).
Proof.
  unfold requestQtIndex.
  destruct (axios_get ROOT_QTIFW_URL) as [html|].
  - rewrite parseQtIndex_coercedLabels.
    pose proof (maxSatisfying_spec Range (coercedLabels coerce html)
                  requestedVersion) as Hmax.
    destruct (semver.maxSatisfying Range (coercedLabels coerce html)
                requestedVersion) as [m|]; [discriminate|].
    intros H. injection H as <-. right. exists html.
    split; [reflexivity|]. split; [exact Hmax | reflexivity].
  - intros H. injection H as <-. left. split; reflexivity.
Qed.

Lemma requestQtIndex_failures_witness :
  ((fun _ : string => @None Document) ROOT_QTIFW_URL = None
   /\ Throw ("Failed request to '" ++ ROOT_QTIFW_URL ++ "'")
      = Throw ("Failed request to '" ++ ROOT_QTIFW_URL ++ "'"))
  \/ (exists html,
        (fun _ : string => @None Document) ROOT_QTIFW_URL = Some html
        /\ (forall v, In v (coercedLabels Reference.coerce html) ->
                      semver.satisfies Reference.Range v "4.6.0" = false)
        /\ Throw ("Failed request to '" ++ ROOT_QTIFW_URL ++ "'")
           = ThrowError ("Invalid version given: available versions are: "
                         ++ versionsText (coercedLabels Reference.coerce html))).
Proof.
  apply (requestQtIndex_failures Reference.coerce Reference.Range
           (fun _ => None) "4.6.0").
  reflexivity.
Defined.
